(** * LocalConverterService: a shallow embedding and its verified properties

    The development follows [src/services/local-converter.service.ts].
    JavaScript strings are sequences of UTF-16 code units, numbers are
    rationals.  The built-ins with a fixed meaning ([trim], [split],
    [JSON.stringify], [toISOString], [atob], a stable [sort]) and the
    archive writer are executable definitions of module [JS] and of the
    service; the libraries whose result depends on a document or on the
    platform (pdf.js, the archive reader, DOMParser, Turndown, the
    collation of [localeCompare], the page of jsPDF) are the fields of a
    [Host] record, and the clock is an argument of the functions that read
    it.  A thrown error is the left injection of a sum. *)

From Stdlib Require Import Ascii String DecimalString DecimalZ.
From Stdlib Require Import List Bool Arith NArith ZArith QArith Qround Lia Lqa.
From Stdlib Require Import Permutation Sorted.
Import ListNotations.

Close Scope Q_scope.

(** ** JavaScript strings and the built-ins the service uses *)

Module JS.

Local Open Scope N_scope.

(** A UTF-16 code unit. *)
Definition char16 := N.

(** A JavaScript string value. *)
Definition jsstring := list char16.

(** A source literal, character by character. *)
Definition lit (s : string) : jsstring :=
  map N_of_ascii (list_ascii_of_string s).

(** A source literal in which every apostrophe of the Rocq text stands for
    the double quote of the TypeScript text (none of the templates of the
    service contains an apostrophe). *)
Definition tpl (s : string) : jsstring :=
  map (fun c => if N.eqb c 39 then 34%N else c) (lit s).

Definition LF : char16 := 10.
Definition ampersand : char16 := 38.
Definition less : char16 := 60.
Definition greater : char16 := 62.

Fixpoint eqb (s t : jsstring) : bool :=
  match s, t with
  | [], [] => true
  | c :: s', d :: t' => N.eqb c d && eqb s' t'
  | _, _ => false
  end.

(** [s.startsWith(p)] *)
Fixpoint startsWith (p s : jsstring) : bool :=
  match p, s with
  | [], _ => true
  | _ :: _, [] => false
  | c :: p', d :: s' => N.eqb c d && startsWith p' s'
  end.

(** [s.includes(p)] *)
Fixpoint includes (p s : jsstring) : bool :=
  startsWith p s ||
  match s with
  | [] => false
  | _ :: s' => includes p s'
  end.

(** [s.endsWith(p)] *)
Definition endsWith (p s : jsstring) : bool :=
  startsWith (rev p) (rev s).

(** Lower-casing of the Basic Latin letters.  [String.prototype.toLowerCase]
    also maps letters outside Basic Latin, but never to a Basic Latin
    letter of an extension tested by the service. *)
Definition lowerUnit (c : char16) : char16 :=
  if (65 <=? c) && (c <=? 90) then c + 32 else c.

Definition toLowerCase (s : jsstring) : jsstring := map lowerUnit s.

(** [WhiteSpace] and [LineTerminator] code units, the ones [trim] strips. *)
Definition isWhiteSpace (c : char16) : bool :=
  existsb (N.eqb c)
    [9; 10; 11; 12; 13; 32; 160; 5760; 8232; 8233; 8239; 8287; 12288; 65279]%N
  || ((8192 <=? c) && (c <=? 8202))%N.

Fixpoint trimStart (s : jsstring) : jsstring :=
  match s with
  | [] => []
  | c :: s' => if isWhiteSpace c then trimStart s' else s
  end.

Definition trimEnd (s : jsstring) : jsstring := rev (trimStart (rev s)).

Definition trim (s : jsstring) : jsstring := trimEnd (trimStart s).

(** Truthiness of a string: the empty string is the only falsy one. *)
Definition truthy (s : jsstring) : bool :=
  match s with [] => false | _ :: _ => true end.

(** [s.split(sep)] for a one-unit separator: never the empty array. *)
Fixpoint split (sep : char16) (s : jsstring) : list jsstring :=
  match s with
  | [] => [[]]
  | c :: s' =>
      if N.eqb c sep then [] :: split sep s'
      else match split sep s' with
           | [] => [[c]]
           | piece :: pieces => (c :: piece) :: pieces
           end
  end.

(** [parts.join(sep)] *)
Fixpoint join (sep : jsstring) (parts : list jsstring) : jsstring :=
  match parts with
  | [] => []
  | [p] => p
  | p :: rest => p ++ sep ++ join sep rest
  end.

(** [s.replace(/c/g, by)] for a one-unit pattern [c] and a replacement
    without dollar sign. *)
Definition replaceAll (c : char16) (by_ : jsstring) (s : jsstring) : jsstring :=
  flat_map (fun d => if N.eqb d c then by_ else [d]) s.

(** *** Numbers as decimal and hexadecimal digit strings *)

Definition digit (d : Z) : char16 := (48 + Z.to_N d)%N.

(** [n] written with exactly [width] decimal digits (low digits kept). *)
Fixpoint padded (width : nat) (n : Z) : jsstring :=
  match width with
  | O => []
  | S w => padded w (n / 10) ++ [digit (n mod 10)]
  end.

Definition hexDigit (d : N) : char16 :=
  if (d <? 10)%N then 48 + d else 87 + d.

(** The four lower-case hexadecimal digits of a code unit. *)
Definition hex4 (c : char16) : jsstring :=
  [hexDigit ((c / 4096) mod 16); hexDigit ((c / 256) mod 16);
   hexDigit ((c / 16) mod 16); hexDigit (c mod 16)].

(** *** Date.prototype.toISOString, after ECMA-262 (time values) *)

Section Dates.
Local Open Scope Z_scope.

Definition msPerDay := 86400000.
Definition Day (t : Z) := t / msPerDay.
Definition TimeWithinDay (t : Z) := t mod msPerDay.

Definition DayFromYear (y : Z) :=
  365 * (y - 1970) + (y - 1969) / 4 - (y - 1901) / 100 + (y - 1601) / 400.

(** The largest year whose first day is not after [t]. *)
Definition YearFromTime (t : Z) : Z :=
  let d := Day t in
  let guess := 1970 + (d * 10000) / 3652425 in
  match find (fun y => DayFromYear y <=? d)
             [guess + 2; guess + 1; guess; guess - 1] with
  | Some y => y
  | None => guess - 2
  end.

Definition InLeapYear (y : Z) : Z :=
  if (y mod 4 =? 0) && (negb (y mod 100 =? 0) || (y mod 400 =? 0))
  then 1 else 0.

(** Month (0-based) and day of the month (1-based) of day [dw] of a year. *)
Definition MonthAndDate (leap dw : Z) : Z * Z :=
  if dw <? 31 then (0, dw + 1)
  else if dw <? 59 + leap then (1, dw - 30)
  else if dw <? 90 + leap then (2, dw - 58 - leap)
  else if dw <? 120 + leap then (3, dw - 89 - leap)
  else if dw <? 151 + leap then (4, dw - 119 - leap)
  else if dw <? 181 + leap then (5, dw - 150 - leap)
  else if dw <? 212 + leap then (6, dw - 180 - leap)
  else if dw <? 243 + leap then (7, dw - 211 - leap)
  else if dw <? 273 + leap then (8, dw - 242 - leap)
  else if dw <? 304 + leap then (9, dw - 272 - leap)
  else if dw <? 334 + leap then (10, dw - 303 - leap)
  else (11, dw - 333 - leap).

Definition isoYear (y : Z) : jsstring :=
  if (0 <=? y) && (y <=? 9999) then padded 4 y
  else (if 0 <=? y then lit "+" else lit "-") ++ padded 6 (Z.abs y).

(** [new Date(t).toISOString()] for a valid time value [t]
    (milliseconds since the epoch). *)
Definition toISOString (t : Z) : jsstring :=
  let y := YearFromTime t in
  let '(m, d) := MonthAndDate (InLeapYear y) (Day t - DayFromYear y) in
  let w := TimeWithinDay t in
  isoYear y ++ lit "-" ++ padded 2 (m + 1) ++ lit "-" ++ padded 2 d
  ++ lit "T" ++ padded 2 (w / 3600000) ++ lit ":"
  ++ padded 2 ((w / 60000) mod 60) ++ lit ":"
  ++ padded 2 ((w / 1000) mod 60) ++ lit "." ++ padded 3 (w mod 1000)
  ++ lit "Z".

End Dates.

(** *** JSON.stringify *)

Definition isLead (c : char16) : bool := ((55296 <=? c) && (c <=? 56319))%N.
Definition isTrail (c : char16) : bool := ((56320 <=? c) && (c <=? 57343))%N.

Definition backslash : char16 := 92%N.
Definition dquote : char16 := 34%N.

(** The escape of one code unit that is not half of a surrogate pair. *)
Definition quoteUnit (c : char16) : jsstring :=
  if N.eqb c 8 then [backslash; 98]
  else if N.eqb c 9 then [backslash; 116]
  else if N.eqb c 10 then [backslash; 110]
  else if N.eqb c 12 then [backslash; 102]
  else if N.eqb c 13 then [backslash; 114]
  else if N.eqb c dquote then [backslash; dquote]
  else if N.eqb c backslash then [backslash; backslash]
  else if (c <? 32) || isLead c || isTrail c
       then [backslash; 117] ++ hex4 c
  else [c].

(** The body of [QuoteJSONString]: paired surrogates go through, lone ones
    are escaped. *)
Fixpoint quoteBody (s : jsstring) : jsstring :=
  match s with
  | [] => []
  | c :: s' =>
      match s' with
      | d :: s'' =>
          if isLead c && isTrail d
          then c :: d :: quoteBody s''
          else quoteUnit c ++ quoteBody s'
      | [] => quoteUnit c
      end
  end.

Definition quoteJSON (s : jsstring) : jsstring :=
  [dquote] ++ quoteBody s ++ [dquote].

(** One property line of an object printed with a two-space indent. *)
Definition property (kv : jsstring * jsstring) : jsstring :=
  lit "  " ++ quoteJSON (fst kv) ++ lit ": " ++ quoteJSON (snd kv).

(** [JSON.stringify(obj, null, 2)] for an object whose properties, in
    insertion order, are all strings. *)
Definition stringify2 (props : list (jsstring * jsstring)) : jsstring :=
  match props with
  | [] => lit "{}"
  | _ :: _ =>
      lit "{" ++ [LF] ++ join (lit "," ++ [LF]) (map property props)
      ++ [LF] ++ lit "}"
  end.

(** The decimal text of an integer, as a template literal prints it. *)
Definition numberToString (n : Z) : jsstring :=
  lit (NilZero.string_of_int (Z.to_int n)).

(** *** Array.prototype.sort with a comparator

    The sort is stable; for a consistent comparator every stable sort
    returns the same array, so insertion from the right is a model. *)

Section Sort.
Variable A : Type.
Variable cmp : A -> A -> Z.

Fixpoint insert (x : A) (l : list A) : list A :=
  match l with
  | [] => [x]
  | y :: l' => if (cmp x y <=? 0)%Z then x :: l else y :: insert x l'
  end.

Fixpoint sort (l : list A) : list A :=
  match l with
  | [] => []
  | x :: l' => insert x (sort l')
  end.

End Sort.

Arguments insert {A} cmp x l.
Arguments sort {A} cmp l.

(** *** Two string orders

    [ordinalCompare] compares code unit by code unit.  [collate] models
    the default collation behind [String.prototype.localeCompare] on Basic
    Latin text: letters are ranked alphabetically whatever their case,
    after the digits, which come after the other Basic Latin units (ranked
    here by code unit, an approximation); case only breaks ties between
    strings that are otherwise equal, lower case first. *)

Fixpoint lexCompare (k l : list Z) : Z :=
  match k, l with
  | [], [] => 0
  | [], _ :: _ => -1
  | _ :: _, [] => 1
  | a :: k', b :: l' =>
      match (a ?= b)%Z with
      | Lt => -1
      | Gt => 1
      | Eq => lexCompare k' l'
      end
  end%Z.

Definition ordinalCompare (s t : jsstring) : Z :=
  lexCompare (map Z.of_N s) (map Z.of_N t).

Definition isUpper (c : char16) : bool := (65 <=? c) && (c <=? 90).
Definition isLower (c : char16) : bool := (97 <=? c) && (c <=? 122).
Definition isDigit (c : char16) : bool := (48 <=? c) && (c <=? 57).

Definition primaryWeight (c : char16) : Z :=
  if isUpper c then 2000 + Z.of_N (c - 65)
  else if isLower c then 2000 + Z.of_N (c - 97)
  else if isDigit c then 1000 + Z.of_N (c - 48)
  else if c <? 128 then Z.of_N c
  else 3000 + Z.of_N c.

Definition caseWeight (c : char16) : Z := if isUpper c then 1%Z else 0%Z.

Definition collate (s t : jsstring) : Z :=
  match lexCompare (map primaryWeight s) (map primaryWeight t) with
  | Z0 => lexCompare (map caseWeight s) (map caseWeight t)
  | r => r
  end.

(** *** atob: forgiving base64 decoding

    [None] is the thrown [InvalidCharacterError]. *)

Definition sextet (c : char16) : option N :=
  if isUpper c then Some (c - 65)
  else if isLower c then Some (c - 71)
  else if isDigit c then Some (c + 4)
  else if c =? 43 then Some 62
  else if c =? 47 then Some 63
  else None.

Fixpoint sextets (s : jsstring) : option (list N) :=
  match s with
  | [] => Some []
  | c :: s' =>
      match sextet c, sextets s' with
      | Some v, Some vs => Some (v :: vs)
      | _, _ => None
      end
  end.

Fixpoint octets (vs : list N) : jsstring :=
  match vs with
  | a :: b :: c :: d :: rest =>
      (a * 4 + b / 16) :: ((b mod 16) * 16 + c / 4) :: ((c mod 4) * 64 + d)
      :: octets rest
  | [a; b; c] => [a * 4 + b / 16; (b mod 16) * 16 + c / 4]
  | [a; b] => [a * 4 + b / 16]
  | _ => []
  end.

Definition isAsciiWhitespace (c : char16) : bool :=
  existsb (N.eqb c) [9; 10; 12; 13; 32].

(** Up to two padding signs are dropped from a text whose length is a
    multiple of four. *)
Definition dropPadding (s : jsstring) : jsstring :=
  if (Nat.modulo (length s) 4 =? 0)%nat then
    match rev s with
    | 61 :: 61 :: r => rev r
    | 61 :: r => rev r
    | _ => s
    end
  else s.

Definition atob (encoded : jsstring) : option jsstring :=
  let s := dropPadding (filter (fun c => negb (isAsciiWhitespace c)) encoded) in
  if (Nat.modulo (length s) 4 =? 1)%nat then None
  else option_map octets (sextets s).

End JS.

Import JS.

(** ** The service *)

Module Converter.

(** *** Thrown errors and fallible steps *)

(** A thrown value, as a [catch] clause receives it under [err: any]:
    [null], [undefined], or a value whose [message] property is a string
    or is absent (an [Error] object carries one, a thrown string none). *)
Inductive Error :=
| ThrownNull
| ThrownUndefined
| Thrown (message : option jsstring).

(** [new Error(msg)] *)
Definition errorOf (msg : jsstring) : Error := Thrown (Some msg).

(** The outcome of a step that may throw: [inl] is the thrown error. *)
Definition result (A : Type) : Type := (Error + A)%type.

Definition ret {A : Type} (a : A) : result A := inr a.

Definition throw {A : Type} (msg : jsstring) : result A :=
  inl (errorOf msg).

Definition bind {A B : Type} (c : result A) (k : A -> result B) : result B :=
  match c with
  | inl e => inl e
  | inr a => k a
  end.

Notation "x <- c ;; k" := (bind c (fun x => k))
  (at level 61, c at next level, right associativity).

(** *** The libraries behind the service *)

(** pdf.js: a text run, a page, a loaded document. *)
Record TextItem := { str : jsstring }.
Record PDFPage := { getTextContent : result (list TextItem) }.
Record PDFDocument := { numPages : nat; getPage : nat -> result PDFPage }.

(** The file handed over by the page. *)
Module FileData.
Record t := { base64 : jsstring; type : jsstring; name : jsstring }.
End FileData.

(** One content document read from an EPUB. *)
Module HtmlFile.
Record t := { name : jsstring; content : jsstring }.
End HtmlFile.

(** The [files] object of a loaded archive: its keys in enumeration order,
    each with the outcome of [async('string')] on its entry. *)
Definition ZipFiles := list (jsstring * result jsstring).

Record Host := {
  (** [new TextDecoder('utf-8').decode] *)
  utf8Decode : list N -> jsstring;
  (** [this.pdfLib.getDocument({data}).promise]; [None] when the library
      object or its [getDocument] is missing. *)
  pdfLib : option (list N -> result PDFDocument);
  (** [new JSZip().loadAsync] *)
  loadAsync : list N -> result ZipFiles;
  (** When the read of an entry completes: the concurrent reads of
      [Promise.all] push their results in this order, and in the order
      they were started when they complete together. *)
  readTime : jsstring -> nat;
  (** [new DOMParser().parseFromString(c, 'text/html').body.innerHTML] *)
  bodyInnerHTML : jsstring -> jsstring;
  (** [turndownService.turndown] *)
  turndown : jsstring -> jsstring;
  (** [String.prototype.localeCompare] *)
  localeCompare : jsstring -> jsstring -> Z;
  (** [doc.internal.pageSize] of a new jsPDF document *)
  pageWidth : Q;
  pageHeight : Q;
  (** [doc.splitTextToSize] at a font size *)
  splitTextToSize : Q -> jsstring -> Q -> list jsstring
}.

(** *** formatOutput

    [now] is the time value [new Date()] reads when the call is made. *)

Definition paragraph (l : jsstring) : jsstring :=
  if truthy (trim l) then lit "<p>" ++ l ++ lit "</p>" else [].

Definition formatOutput (now : Z) (text format : jsstring) : jsstring :=
  if JS.eqb format (lit "JSON") then
    stringify2 [(lit "generatedAt", toISOString now); (lit "content", text)]
  else if JS.eqb format (lit "PDF") || JS.eqb format (lit "EPUB") then
    text
  else if JS.eqb format (lit "HTML") then
    tpl "<div class='converted-content'>" ++ [LF]
    ++ join [] (map paragraph (split LF text))
    ++ [LF] ++ lit "</div>"
  else text.

(** *** processPDF *)

Definition pageSeparator : jsstring := [LF; LF].

(** The loop [for (i = ...; i <= pdf.numPages; i++)] with [remaining]
    iterations left. *)
Fixpoint pagesFrom (pdf : PDFDocument) (i remaining : nat)
    (fullText : jsstring) : result jsstring :=
  match remaining with
  | O => ret fullText
  | S remaining' =>
      page <- getPage pdf i ;;
      textContent <- getTextContent page ;;
      let pageText := join (lit " ") (map str textContent) in
      pagesFrom pdf (S i) remaining' (fullText ++ pageSeparator ++ pageText)
  end.

Definition processPDF (h : Host) (data : list N) : result jsstring :=
  match pdfLib h with
  | None => throw (lit "PDF.js library not correctly initialized.")
  | Some getDocument =>
      pdf <- getDocument data ;;
      pagesFrom pdf 1 (numPages pdf) []
  end.

(** *** processEPUB *)

(** [/\.(xhtml|html|htm)$/i]: without the [u] flag, ignoring case only
    identifies the Basic Latin letters with their capitals. *)
Definition matchesContentSuffix (filename : jsstring) : bool :=
  existsb (fun ext => endsWith (lit ext) (toLowerCase filename))
          [".xhtml"; ".html"; ".htm"]%string.

Definition isContentDocument (filename : jsstring) : bool :=
  matchesContentSuffix filename
  && negb (startsWith (lit "__") filename)
  && negb (includes (lit "nav") filename)
  && negb (includes (lit "toc") filename).

(** The reads started by the callbacks, in key order; one rejected read
    rejects the whole [Promise.all]. *)
Fixpoint readMatched (files : ZipFiles) : result (list HtmlFile.t) :=
  match files with
  | [] => ret []
  | (filename, read) :: rest =>
      if isContentDocument filename then
        str <- read ;;
        others <- readMatched rest ;;
        ret ({| HtmlFile.name := filename; HtmlFile.content := str |} :: others)
      else readMatched rest
  end.

Definition byName (h : Host) (a b : HtmlFile.t) : Z :=
  localeCompare h (HtmlFile.name a) (HtmlFile.name b).

Definition byReadTime (h : Host) (a b : HtmlFile.t) : Z :=
  (Z.of_nat (readTime h (HtmlFile.name a))
   - Z.of_nat (readTime h (HtmlFile.name b)))%Z.

(** [htmlFiles] after the pushes. *)
Definition pushed (h : Host) (read : list HtmlFile.t) : list HtmlFile.t :=
  sort (byReadTime h) read.

(** [htmlFiles] after [htmlFiles.sort(...)]. *)
Definition sortedFiles (h : Host) (read : list HtmlFile.t) : list HtmlFile.t :=
  sort (byName h) (pushed h read).

Definition markdownOf (h : Host) (file : HtmlFile.t) : jsstring :=
  turndown h (bodyInnerHTML h (HtmlFile.content file)).

Definition combine (h : Host) (htmlFiles : list HtmlFile.t) : jsstring :=
  fold_left (fun combinedText file =>
               combinedText ++ pageSeparator ++ markdownOf h file)
            htmlFiles [].

Definition noContent : jsstring :=
  lit "Error: No text content extracted from EPUB.".

Definition processEPUB (h : Host) (data : list N) (targetFormat : jsstring)
    : result jsstring :=
  loadedZip <- loadAsync h data ;;
  read <- readMatched loadedZip ;;
  let combinedText := combine h (sortedFiles h read) in
  ret (if truthy combinedText then combinedText else noContent).

(** *** convert *)

(** The extraction step inside the [try] block. *)
Definition extract (h : Host) (fileData : FileData.t) (bytes : list N)
    (targetFormat : jsstring) : result jsstring :=
  if JS.eqb (FileData.type fileData) (lit "application/pdf") then
    processPDF h bytes
  else if includes (lit "epub") (FileData.type fileData)
          || endsWith (lit ".epub") (toLowerCase (FileData.name fileData))
  then processEPUB h bytes targetFormat
  else ret (utf8Decode h bytes).

(** [atob(...)], outside the [try] block. *)
Definition decodeBase64 (encoded : jsstring) : result jsstring :=
  match atob encoded with
  | Some binaryString => ret binaryString
  | None => throw (lit "The string to be decoded is not correctly encoded.")
  end.

(** The loop filling the [Uint8Array]: a store keeps the low eight bits. *)
Definition toBytes (binaryString : jsstring) : list N :=
  map (fun c => (c mod 256)%N) binaryString.

(** [err.message]: reading a property of [null] or [undefined] throws a
    [TypeError] (the wording of its message is the engine's). *)
Definition messageOf (err : Error) : result (option jsstring) :=
  match err with
  | ThrownNull =>
      throw (lit "Cannot read properties of null (reading 'message')")
  | ThrownUndefined =>
      throw (lit "Cannot read properties of undefined (reading 'message')")
  | Thrown message => ret message
  end.

(** [err.message || 'Unknown error'] *)
Definition messageOrUnknown (err : Error) : result jsstring :=
  message <- messageOf err ;;
  ret (match message with
       | Some text => if truthy text then text else lit "Unknown error"
       | None => lit "Unknown error"
       end).

Definition convert (h : Host) (now : Z) (fileData : FileData.t)
    (targetFormat : jsstring) : result jsstring :=
  binaryString <- decodeBase64 (FileData.base64 fileData) ;;
  let bytes := toBytes binaryString in
  match
    (content <- extract h fileData bytes targetFormat ;;
     ret (formatOutput now content targetFormat))
  with
  | inr preview => ret preview
  | inl err =>
      shown <- messageOrUnknown err ;;
      ret (lit "PROCESSING ERROR: " ++ shown)
  end.

(** *** The archive writer (JSZip) *)

Inductive Compression := STORE | DEFLATE.

Module ZipObject.
Record t := {
  name : jsstring;
  data : jsstring;
  dir : bool;
  compression : option Compression
}.
End ZipObject.

(** A [JSZip] instance: its [files] in key order. *)
Definition JSZip := list ZipObject.t.

Definition slash : char16 := 47%N.

(** The folders above [path], outermost first, each with its trailing
    slash: the ones [file] creates under the default [createFolders]
    (for a path without two slashes in a row). *)
Fixpoint foldersOf (before path : jsstring) : list jsstring :=
  match path with
  | [] => []
  | c :: rest =>
      match rest with
      | [] => []
      | _ :: _ =>
          if N.eqb c slash && truthy before
          then (before ++ [slash]) :: foldersOf (before ++ [c]) rest
          else foldersOf (before ++ [c]) rest
      end
  end.

Definition hasEntry (path : jsstring) (zip : JSZip) : bool :=
  existsb (fun e => JS.eqb (ZipObject.name e) path) zip.

(** [this.files[name] = object]: an existing key keeps its place. *)
Fixpoint setEntry (e : ZipObject.t) (zip : JSZip) : JSZip :=
  match zip with
  | [] => [e]
  | e' :: zip' =>
      if JS.eqb (ZipObject.name e') (ZipObject.name e) then e :: zip'
      else e' :: setEntry e zip'
  end.

Definition addFolder (zip : JSZip) (path : jsstring) : JSZip :=
  if hasEntry path zip then zip
  else setEntry {| ZipObject.name := path; ZipObject.data := [];
                   ZipObject.dir := true; ZipObject.compression := None |} zip.

(** [zip.file(name, data, {compression})] *)
Definition file (path data : jsstring) (compression : option Compression)
    (zip : JSZip) : JSZip :=
  setEntry {| ZipObject.name := path; ZipObject.data := data;
              ZipObject.dir := false; ZipObject.compression := compression |}
           (fold_left addFolder (foldersOf [] path) zip).

(** One entry as [generateAsync] writes it. *)
Record Written := {
  path : jsstring;
  method : Compression;
  bytesOf : jsstring;
  isFolder : bool
}.

(** [zip.generateAsync({type: 'blob'})]: the entries in key order, each
    with its own compression or else the default of the call, [STORE]. *)
Definition generateAsync (zip : JSZip) : list Written :=
  map (fun e =>
         {| path := ZipObject.name e;
            method := match ZipObject.compression e with
                      | Some c => c
                      | None => STORE
                      end;
            bytesOf := ZipObject.data e;
            isFolder := ZipObject.dir e |}) zip.

(** *** createEPUB

    [tOpf] and [tNcx] are the two readings of [Date.now()]. *)

Definition escapeXml (content : jsstring) : jsstring :=
  replaceAll LF (lit "<br/>")
    (replaceAll greater (lit "&gt;")
      (replaceAll less (lit "&lt;")
        (replaceAll ampersand (lit "&amp;") content))).

Definition containerXml : jsstring :=
  tpl "<?xml version='1.0'?>
<container version='1.0' xmlns='urn:oasis:names:tc:opendocument:xmlns:container'>
   <rootfiles>
      <rootfile full-path='OEBPS/content.opf' media-type='application/oebps-package+xml'/>
   </rootfiles>
</container>".

Definition contentXhtml (title cleanContent : jsstring) : jsstring :=
  tpl "<?xml version='1.0' encoding='UTF-8' standalone='no'?>
<!DOCTYPE html>
<html xmlns='http://www.w3.org/1999/xhtml'>
<head><title>"
    ++ title
    ++ tpl "</title></head>
<body>
<h1>"
    ++ title
    ++ tpl "</h1>
<div style='white-space: pre-wrap;'>"
    ++ cleanContent
    ++ tpl "</div>
</body>
</html>".

Definition contentOpf (tOpf : Z) (title : jsstring) : jsstring :=
  tpl "<?xml version='1.0' encoding='UTF-8'?>
<package xmlns='http://www.idpf.org/2007/opf' unique-identifier='BookId' version='2.0'>
    <metadata xmlns:dc='http://purl.org/dc/elements/1.1/'>
        <dc:title>"
    ++ title
    ++ tpl "</dc:title>
        <dc:language>en</dc:language>
        <dc:identifier id='BookId'>urn:uuid:"
    ++ numberToString tOpf
    ++ tpl "</dc:identifier>
    </metadata>
    <manifest>
        <item id='ncx' href='toc.ncx' media-type='application/x-dtbncx+xml'/>
        <item id='content' href='content.xhtml' media-type='application/xhtml+xml'/>
    </manifest>
    <spine toc='ncx'>
        <itemref idref='content'/>
    </spine>
</package>".

Definition tocNcx (tNcx : Z) (title : jsstring) : jsstring :=
  tpl "<?xml version='1.0' encoding='UTF-8'?>
<ncx xmlns='http://www.daisy.org/z3986/2005/ncx/' version='2005-1'>
    <head><meta name='dtb:uid' content='urn:uuid:"
    ++ numberToString tNcx
    ++ tpl "'/></head>
    <docTitle><text>"
    ++ title
    ++ tpl "</text></docTitle>
    <navMap>
        <navPoint id='navPoint-1' playOrder='1'>
            <navLabel><text>Start</text></navLabel>
            <content src='content.xhtml'/>
        </navPoint>
    </navMap>
</ncx>".

Definition epubZip (tOpf tNcx : Z) (title content : jsstring) : JSZip :=
  let zip := [] in
  let zip := file (lit "mimetype") (lit "application/epub+zip") (Some STORE) zip in
  let zip := file (lit "META-INF/container.xml") containerXml None zip in
  let cleanContent := escapeXml content in
  let zip := file (lit "OEBPS/content.xhtml") (contentXhtml title cleanContent)
                  None zip in
  let opfContent := contentOpf tOpf title in
  let zip := file (lit "OEBPS/content.opf") opfContent None zip in
  let zip := file (lit "OEBPS/toc.ncx") (tocNcx tNcx title) None zip in
  zip.

Definition createEPUB (tOpf tNcx : Z) (title content : jsstring)
    : list Written :=
  generateAsync (epubZip tOpf tNcx title content).

(** *** The PDF writer (jsPDF) *)

(** One call of [doc.text]: what was shown, where, on which page. *)
Record TextOp := {
  onPage : nat;
  atSize : Q;
  shown : jsstring;
  atX : Q;
  atY : Q
}.

(** A document under construction; text goes to the last page added. *)
Record jsPDF := { pages : nat; fontSize : Q; ops : list TextOp }.

Definition newPDF : jsPDF := {| pages := 1; fontSize := 16; ops := [] |}.

Definition setFontSize (size : Q) (doc : jsPDF) : jsPDF :=
  {| pages := pages doc; fontSize := size; ops := ops doc |}.

Definition text (s : jsstring) (x y : Q) (doc : jsPDF) : jsPDF :=
  {| pages := pages doc;
     fontSize := fontSize doc;
     ops := ops doc ++ [{| onPage := pages doc; atSize := fontSize doc;
                           shown := s; atX := x; atY := y |}] |}.

Definition addPage (doc : jsPDF) : jsPDF :=
  {| pages := S (pages doc); fontSize := fontSize doc; ops := ops doc |}.

(** [a > b] on numbers. *)
Definition gtb (a b : Q) : bool := negb (Qle_bool a b).

(** *** generateFile *)

(** [title.replace(/\.[^/.]+$/, "")]: a final dot followed by at least one
    unit, none of them a dot or a slash, is cut off with what follows. *)
Fixpoint extensionLength (reversed : jsstring) : nat :=
  match reversed with
  | [] => O
  | c :: rest =>
      if N.eqb c 46 || N.eqb c slash then O else S (extensionLength rest)
  end.

Definition removeExtension (title : jsstring) : jsstring :=
  let reversed := rev title in
  let n := extensionLength reversed in
  match n, skipn n reversed with
  | S _, c :: before => if N.eqb c 46 then rev before else title
  | _, _ => title
  end.

Definition margin : Q := 15.

(** One turn of the loop over the wrapped lines, on the document and the
    vertical cursor. *)
Definition placeLine (bottom : Q) (state : jsPDF * Q) (line : jsstring)
    : jsPDF * Q :=
  let '(doc, cursorY) := state in
  let '(doc, cursorY) :=
    if gtb cursorY bottom then (addPage doc, 20%Q) else (doc, cursorY) in
  (text line margin cursorY doc, (cursorY + 6)%Q).

Definition layout (bottom : Q) (start : jsPDF * Q) (splitText : list jsstring)
    : jsPDF * Q :=
  fold_left (placeLine bottom) splitText start.

Definition pdfDocument (h : Host) (safeTitle content : jsstring) : jsPDF :=
  let doc := newPDF in
  let maxLineWidth := (pageWidth h - margin * 2)%Q in
  let doc := setFontSize 16 doc in
  let doc := text safeTitle margin 20 doc in
  let doc := setFontSize 11 doc in
  let splitText := splitTextToSize h (fontSize doc) content maxLineWidth in
  fst (layout (pageHeight h - margin)%Q (doc, 30%Q) splitText).

Inductive Blob :=
| PdfBlob (doc : jsPDF)
| ZipBlob (entries : list Written)
| TextBlob (part : jsstring) (mime : jsstring).

Record Artifact := { blob : Blob; extension : jsstring }.

Definition generateFile (h : Host) (tOpf tNcx : Z)
    (content format title : jsstring) : Artifact :=
  let safeTitle := removeExtension title in
  if JS.eqb format (lit "PDF") then
    {| blob := PdfBlob (pdfDocument h safeTitle content);
       extension := lit "pdf" |}
  else if JS.eqb format (lit "EPUB") then
    {| blob := ZipBlob (createEPUB tOpf tNcx safeTitle content);
       extension := lit "epub" |}
  else
    let '(extension0, mime0) := (lit "txt", lit "text/plain") in
    let '(extension1, mime1) :=
      if JS.eqb format (lit "JSON") then (lit "json", lit "application/json")
      else (extension0, mime0) in
    let '(extension2, mime2) :=
      if JS.eqb format (lit "HTML") then (lit "html", lit "text/html")
      else (extension1, mime1) in
    let '(extension3, mime3) :=
      if JS.eqb format (lit "Markdown") then (lit "md", lit "text/markdown")
      else (extension2, mime2) in
    {| blob := TextBlob content mime3; extension := extension3 |}.

End Converter.

Import Converter.

(** ** Reference definitions, in the words of the specification *)

Module Spec.

(** A line that is not blank once trimmed. *)
Definition nonBlank (l : jsstring) : bool := negb (forallb isWhiteSpace l).

(** A line inside a paragraph element. *)
Definition wrapParagraph (l : jsstring) : jsstring :=
  lit "<p>" ++ l ++ lit "</p>".

(** The character-wise escaping of body text. *)
Definition escapeUnit (c : char16) : jsstring :=
  if N.eqb c ampersand then lit "&amp;"
  else if N.eqb c less then lit "&lt;"
  else if N.eqb c greater then lit "&gt;"
  else if N.eqb c LF then lit "<br/>"
  else [c].

(** A code unit that [JSON.stringify] copies unchanged. *)
Definition plainUnit (c : char16) : bool :=
  ((32 <=? c) && negb (c =? 34) && negb (c =? 92) && (c <? 55296))%N.

(** The content of the entry stored under a path. *)
Definition entryAt (p : jsstring) (entries : list Written) : option jsstring :=
  option_map bytesOf (find (fun e => JS.eqb (path e) p) entries).

(** What one page adds to the extracted text. *)
Definition pageBlock (items : list TextItem) : jsstring :=
  pageSeparator ++ join (lit " ") (map str items).

(** The double newlines met when reading a text from left to right. *)
Fixpoint countSeparators (s : jsstring) : nat :=
  match s with
  | c :: (d :: rest) as s' =>
      if N.eqb c LF && N.eqb d LF then S (countSeparators rest)
      else countSeparators s'
  | _ => O
  end.

(** What the documents add to the text when taken in a given order. *)
Definition concatenated (h : Host) (files : list HtmlFile.t) : jsstring :=
  concat (map (fun file => [LF; LF] ++ markdownOf h file) files).

(** One path is not after another for the comparison the host uses. *)
Definition notAfter (h : Host) (a b : HtmlFile.t) : Prop :=
  (localeCompare h (HtmlFile.name a) (HtmlFile.name b) <= 0)%Z.

(** The documents in ordinal (code unit) order of their paths. *)
Definition ordinalOrder (files : list HtmlFile.t) : list HtmlFile.t :=
  sort (fun a b => ordinalCompare (HtmlFile.name a) (HtmlFile.name b)) files.

(** The lines that fit on the first page, below the title: those whose
    position, 30 and then every 6 units, is not beyond the bottom. *)
Definition firstPageCapacity (bottom : Q) : nat :=
  if Qle_bool 30 bottom
  then Z.to_nat (Qfloor ((bottom - 30) * (1 # 6)) + 1)
  else O.

(** Where a first line goes, given the page and the cursor before it. *)
Definition startsFrom (bottom : Q) (page : nat) (cursorY : Q) (op : TextOp)
    : Prop :=
  if gtb cursorY bottom
  then onPage op = S page /\ atY op = 20%Q
  else onPage op = page /\ atY op = cursorY.

(** Where a line goes, given the line before it: one line height lower,
    or at the top of a new page when that would be beyond the bottom. *)
Definition followsOn (bottom : Q) (previous next : TextOp) : Prop :=
  startsFrom bottom (onPage previous) (atY previous + 6)%Q next.

(** [p] occurs in [s]. *)
Definition occursIn (p s : jsstring) : Prop :=
  exists before after, s = before ++ p ++ after.

End Spec.

Import Spec.

(** ** Hosts for the worked examples *)

Module Demo.

(** jsPDF's default page, A4 upright in millimetres: 595.28 by 841.89
    points at 72/25.4 points per unit. *)
Definition a4Width : Q := (59528 * 254) # 72000.
Definition a4Height : Q := (84189 * 254) # 72000.

(** A host for documents of markup-free Basic Latin text, which the byte
    decoder, the HTML parser and Turndown all hand back unchanged, with
    lines short enough never to be wrapped; every read completes at
    once, and strings are collated as [collate] does. *)
Definition host (pdf : option (list N -> result PDFDocument))
    (files : ZipFiles) : Host :=
  {| utf8Decode := fun bytes => bytes;
     pdfLib := pdf;
     loadAsync := fun _ => ret files;
     readTime := fun _ => O;
     bodyInnerHTML := fun c => c;
     turndown := fun html => html;
     localeCompare := collate;
     pageWidth := a4Width;
     pageHeight := a4Height;
     splitTextToSize := fun _ s _ => split LF s |}.

(** A loaded PDF with the given text runs on its pages. *)
Definition pdfOf (texts : list (list jsstring)) : PDFDocument :=
  {| numPages := length texts;
     getPage := fun i =>
       match i with
       | O => throw (lit "Invalid page request.")
       | S k =>
           match nth_error texts k with
           | Some runs =>
               ret {| getTextContent := ret (map (fun s => {| str := s |}) runs) |}
           | None => throw (lit "Invalid page request.")
           end
       end |}.

(** An archive with a cover page and the two navigation documents. *)
Definition navigationOnly : ZipFiles :=
  [(lit "mimetype", ret (lit "application/epub+zip"));
   (lit "OEBPS/cover.jpg", ret []);
   (lit "OEBPS/nav.xhtml", ret (lit "contents"));
   (lit "OEBPS/toc.html", ret (lit "contents"))].

(** Two chapters, the capitalised one second in the archive. *)
Definition twoChapters : ZipFiles :=
  [(lit "a.xhtml", ret (lit "one"));
   (lit "B.xhtml", ret (lit "two"))].

(** A PDF library whose loading task rejects with an error that carries
    no message. *)
Definition silentFailure : list N -> result PDFDocument :=
  fun _ => inl (errorOf []).

(** A PDF library whose loading task rejects with [null]. *)
Definition nullRejection : list N -> result PDFDocument :=
  fun _ => inl ThrownNull.

(** A text of fifty short lines. *)
Definition fiftyLines : jsstring :=
  concat (repeat (lit "line" ++ [LF]) 49) ++ lit "line".

Definition pdfFile (encoded : jsstring) : FileData.t :=
  {| FileData.base64 := encoded;
     FileData.type := lit "application/pdf";
     FileData.name := lit "book.pdf" |}.

End Demo.

(** ** The component that drives the service (app.component)

    The signals of the component are the fields of a state; an event
    handler is a function on states.  What the platform decides (the text
    of a data URL, the draws of [Math.random], how many times the interval
    fires while a conversion is pending) is an argument. *)

Module App.

Record State := {
  isDragOver : bool;
  isProcessing : bool;
  progress : Z;
  uploadedFile : option FileData.t;
  convertedContent : jsstring;
  targetFormat : jsstring
}.

Definition initial : State :=
  {| isDragOver := false; isProcessing := false; progress := 0;
     uploadedFile := None; convertedContent := [];
     targetFormat := lit "Markdown" |}.

Definition formats : list jsstring :=
  [lit "Markdown"; lit "Plain Text"; lit "HTML"; lit "JSON"; lit "PDF";
   lit "EPUB"].

(** [signal.set] on each signal. *)
Definition setIsProcessing (b : bool) (s : State) : State :=
  {| isDragOver := isDragOver s; isProcessing := b; progress := progress s;
     uploadedFile := uploadedFile s; convertedContent := convertedContent s;
     targetFormat := targetFormat s |}.

Definition setProgress (p : Z) (s : State) : State :=
  {| isDragOver := isDragOver s; isProcessing := isProcessing s; progress := p;
     uploadedFile := uploadedFile s; convertedContent := convertedContent s;
     targetFormat := targetFormat s |}.

Definition setUploadedFile (f : option FileData.t) (s : State) : State :=
  {| isDragOver := isDragOver s; isProcessing := isProcessing s;
     progress := progress s; uploadedFile := f;
     convertedContent := convertedContent s; targetFormat := targetFormat s |}.

Definition setConvertedContent (c : jsstring) (s : State) : State :=
  {| isDragOver := isDragOver s; isProcessing := isProcessing s;
     progress := progress s; uploadedFile := uploadedFile s;
     convertedContent := c; targetFormat := targetFormat s |}.

Definition hasResult (s : State) : bool :=
  (0 <? length (convertedContent s))%nat.

Definition downloadLabel (s : State) : jsstring :=
  let f := targetFormat s in
  if JS.eqb f (lit "Markdown") then lit "DOWNLOAD .MD"
  else if JS.eqb f (lit "Plain Text") then lit "DOWNLOAD .TXT"
  else if JS.eqb f (lit "HTML") then lit "DOWNLOAD .HTML"
  else if JS.eqb f (lit "JSON") then lit "DOWNLOAD .JSON"
  else if JS.eqb f (lit "PDF") then lit "DOWNLOAD .PDF"
  else if JS.eqb f (lit "EPUB") then lit "DOWNLOAD .EPUB"
  else lit "DOWNLOAD FILE".

Definition comma : char16 := 44%N.

(** [reader.onload] of [handleFile], on the data URL the reader made.
    When the URL has no comma the payload is [undefined], which [atob],
    its only reader, takes as the text of that word. *)
Definition onload (fileName fileType base64Raw : jsstring) (s : State)
    : State :=
  let base64Data :=
    match nth_error (split comma base64Raw) 1 with
    | Some d => d
    | None => lit "undefined"
    end in
  let s := setUploadedFile
             (Some {| FileData.base64 := base64Data;
                      FileData.type := fileType;
                      FileData.name := fileName |}) s in
  let s := setConvertedContent [] s in
  setProgress 0 s.

(** The update of the progress by the interval: [random] is the draw of
    [Math.random()]. *)
Definition advance (random : Q) (p : Z) : Z :=
  if (p >=? 98)%Z then p
  else
    let inc := Z.max 2 (Qfloor (random * 5)) in
    (p + inc)%Z.

(** One firing of the interval of [simulateProgress]. *)
Definition tick (random : Q) (s : State) : State :=
  if negb (isProcessing s) then
    if hasResult s then setProgress 100 s else setProgress 0 s
  else setProgress (advance random (progress s)) s.

(** [startConversion]; [draws] are the firings of the interval while the
    conversion is pending. *)
Definition startConversion (h : Host) (now : Z) (draws : list Q) (s : State)
    : State :=
  match uploadedFile s with
  | None => s
  | Some file =>
      let s := setIsProcessing true s in
      let s := setProgress 1 s in
      let s := fold_left (fun s random => tick random s) draws s in
      let s :=
        match convert h now file (targetFormat s) with
        | inr result => setProgress 100 (setConvertedContent result s)
        | inl error => setProgress 0 s
        end in
      setIsProcessing false s
  end.

(** [downloadResult]: the name of the download and what is downloaded;
    [tName] is the reading of [Date.now()] for the name. *)
Definition downloadResult (h : Host) (tOpf tNcx tName : Z) (s : State)
    : jsstring * Artifact :=
  let content := convertedContent s in
  let format := targetFormat s in
  let originalName :=
    match uploadedFile s with
    | Some f =>
        if truthy (FileData.name f) then FileData.name f
        else lit "nebula_doc"
    | None => lit "nebula_doc"
    end in
  let result := generateFile h tOpf tNcx content format originalName in
  (lit "nebula_output_" ++ numberToString tName ++ lit "."
   ++ extension result, result).

Definition reset (s : State) : State :=
  let s := setUploadedFile None s in
  let s := setConvertedContent [] s in
  let s := setProgress 0 s in
  setIsProcessing false s.

End App.

(** ** Further reference definitions *)

Module Ref.

(** A string all of whose units are code units. *)
Definition wellFormed (s : jsstring) : Prop := Forall (fun c => (c < 65536)%N) s.

(** *** Reading JSON back: strings, and objects whose values are strings *)

Definition hexValue (c : char16) : option N :=
  if isDigit c then Some (c - 48)%N
  else if ((97 <=? c) && (c <=? 102))%N then Some (c - 87)%N
  else if ((65 <=? c) && (c <=? 70))%N then Some (c - 55)%N
  else None.

(** The unit a two-character escape stands for. *)
Definition simpleEscape (e : char16) : option char16 :=
  if N.eqb e 34%N then Some 34%N
  else if N.eqb e 92%N then Some 92%N
  else if N.eqb e 47%N then Some 47%N
  else if N.eqb e 98%N then Some 8%N
  else if N.eqb e 102%N then Some 12%N
  else if N.eqb e 110%N then Some 10%N
  else if N.eqb e 114%N then Some 13%N
  else if N.eqb e 116%N then Some 9%N
  else None.

(** A JSON string from after its opening quote: the text it denotes and
    what follows its closing quote. *)
Fixpoint readString (s : jsstring) : option (jsstring * jsstring) :=
  match s with
  | [] => None
  | c :: r =>
      if N.eqb c dquote then Some ([], r)
      else if N.eqb c backslash then
        match r with
        | [] => None
        | e :: r' =>
            if N.eqb e 117%N then
              match r' with
              | a :: b :: x :: y :: r'' =>
                  match hexValue a, hexValue b, hexValue x, hexValue y,
                        readString r'' with
                  | Some a', Some b', Some x', Some y', Some (t, rest) =>
                      Some ((((a' * 16 + b') * 16 + x') * 16 + y')%N :: t, rest)
                  | _, _, _, _, _ => None
                  end
              | _ => None
              end
            else
              match simpleEscape e, readString r' with
              | Some d, Some (t, rest) => Some (d :: t, rest)
              | _, _ => None
              end
        end
      else if (c <? 32)%N then None
      else
        match readString r with
        | Some (t, rest) => Some (c :: t, rest)
        | None => None
        end
  end.

Definition isJsonSpace (c : char16) : bool :=
  existsb (N.eqb c) [32; 9; 10; 13]%N.

Fixpoint skipSpace (s : jsstring) : jsstring :=
  match s with
  | [] => []
  | c :: r => if isJsonSpace c then skipSpace r else s
  end.

(** A token: the unit expected after optional white space. *)
Definition expect (c : char16) (s : jsstring) : option jsstring :=
  match skipSpace s with
  | d :: r => if N.eqb d c then Some r else None
  | [] => None
  end.

(** A quoted string after optional white space. *)
Definition readQuoted (s : jsstring) : option (jsstring * jsstring) :=
  match expect dquote s with
  | Some r => readString r
  | None => None
  end.

(** The members of an object, each a string under a string key, up to the
    closing brace and the end of the text. *)
Fixpoint readMembers (fuel : nat) (s : jsstring)
    : option (list (jsstring * jsstring)) :=
  match fuel with
  | O => None
  | S fuel' =>
      match readQuoted s with
      | None => None
      | Some (key, s1) =>
          match expect 58%N s1 with
          | None => None
          | Some s2 =>
              match readQuoted s2 with
              | None => None
              | Some (value, s3) =>
                  match expect 44%N s3, expect 125%N s3 with
                  | Some s4, _ =>
                      option_map (cons (key, value)) (readMembers fuel' s4)
                  | None, Some s4 =>
                      match skipSpace s4 with
                      | [] => Some [(key, value)]
                      | _ :: _ => None
                      end
                  | None, None => None
                  end
              end
          end
      end
  end.

(** [JSON.parse] on the text of an object whose values are all strings:
    its properties in order. *)
Definition parseObject (s : jsstring) : option (list (jsstring * jsstring)) :=
  match expect 123%N s with
  | None => None
  | Some s1 =>
      match expect 125%N s1 with
      | Some s2 =>
          match skipSpace s2 with
          | [] => Some []
          | _ :: _ => None
          end
      | None => readMembers (length s) s1
      end
  end.

(** *** Escaped XML text *)

(** Text in which an ampersand only opens one of the three entities, a
    less-than sign only opens a line break element, and no greater-than
    sign or newline stands outside of these; [inside] units of a
    recognised token are still to be passed over. *)
Fixpoint scanEscaped (inside : nat) (s : jsstring) : bool :=
  match s with
  | [] => true
  | c :: r =>
      match inside with
      | S k => scanEscaped k r
      | O =>
          if N.eqb c ampersand then
            if startsWith (lit "amp;") r then scanEscaped 4 r
            else if startsWith (lit "lt;") r || startsWith (lit "gt;") r
                 then scanEscaped 3 r
            else false
          else if N.eqb c less then
            startsWith (lit "br/>") r && scanEscaped 4 r
          else negb (N.eqb c greater) && negb (N.eqb c LF) && scanEscaped 0 r
      end
  end.

Definition wellEscaped (s : jsstring) : bool := scanEscaped 0 s.

(** *** Download formats *)

Definition extensionFor (format : jsstring) : jsstring :=
  if JS.eqb format (lit "PDF") then lit "pdf"
  else if JS.eqb format (lit "EPUB") then lit "epub"
  else if JS.eqb format (lit "Markdown") then lit "md"
  else if JS.eqb format (lit "HTML") then lit "html"
  else if JS.eqb format (lit "JSON") then lit "json"
  else lit "txt".

Definition mimeFor (format : jsstring) : jsstring :=
  if JS.eqb format (lit "Markdown") then lit "text/markdown"
  else if JS.eqb format (lit "HTML") then lit "text/html"
  else if JS.eqb format (lit "JSON") then lit "application/json"
  else lit "text/plain".

Definition upperUnit (c : char16) : char16 :=
  if isLower c then (c - 32)%N else c.

(** *** Pages of a PDF *)

(** The lines that fit on a page opened by a page break, from 20 down. *)
Definition nextPageCapacity (bottom : Q) : nat :=
  Z.to_nat (Qfloor ((bottom - 20) * (1 # 6)) + 1).

(** The pages of a document of [n] wrapped lines. *)
Definition pageCount (bottom : Q) (n : nat) : nat :=
  if (n <=? firstPageCapacity bottom)%nat then 1%nat
  else (2 + (n - firstPageCapacity bottom - 1) / nextPageCapacity bottom)%nat.

(** *** Hosts that differ by the completion of the reads *)


(** A host that differs by the archive its reader loads. *)
Definition withArchive (h : Host) (files : ZipFiles) : Host :=
  {| utf8Decode := utf8Decode h;
     pdfLib := pdfLib h;
     loadAsync := fun _ => ret files;
     readTime := readTime h;
     bodyInnerHTML := bodyInnerHTML h;
     turndown := turndown h;
     localeCompare := localeCompare h;
     pageWidth := pageWidth h;
     pageHeight := pageHeight h;
     splitTextToSize := splitTextToSize h |}.

(** A unit that is neither a dot nor a slash. *)
Definition inExtension (c : char16) : bool :=
  negb (N.eqb c 46 || N.eqb c slash).

End Ref.

Import Ref.

(** ** Further samples *)

Module Samples.

(** A text file of five letters, as the page hands it over. *)
Definition notes : FileData.t :=
  {| FileData.base64 := lit "aGVsbG8=";
     FileData.type := lit "text/plain";
     FileData.name := lit "notes.txt" |}.

(** A book whose type the browser did not recognise. *)
Definition shoutedBook : FileData.t :=
  {| FileData.base64 := lit "aGVsbG8=";
     FileData.type := [];
     FileData.name := lit "BOOK.EPUB" |}.

(** A two-page PDF whose second page cannot be read. *)
Definition brokenSecondPage : PDFDocument :=
  {| numPages := 2;
     getPage := fun i =>
       match i with
       | 1%nat => ret {| getTextContent := ret [{| str := lit "first" |}] |}
       | _ => throw (lit "Invalid page request.")
       end |}.

(** An archive with one chapter and a stylesheet that cannot be read. *)
Definition unreadableStyle : ZipFiles :=
  [(lit "style.css", throw (lit "Corrupted zip: missing bytes."));
   (lit "chapter.xhtml", ret (lit "one"))].

(** The same archive with a readable stylesheet. *)
Definition readableStyle : ZipFiles :=
  [(lit "style.css", ret (lit "p { margin: 0 }"));
   (lit "chapter.xhtml", ret (lit "one"))].

(** An archive whose only chapter cannot be read. *)
Definition unreadableChapter : ZipFiles :=
  [(lit "chapter.xhtml", throw (lit "Corrupted zip: missing bytes."))].


(** A state with the text file loaded. *)
Definition loaded : App.State :=
  App.setUploadedFile (Some notes) App.initial.

(** The text file previewed, with EPUB chosen for the download. *)
Definition epubChosen : App.State :=
  {| App.isDragOver := false; App.isProcessing := false;
     App.progress := 100; App.uploadedFile := Some notes;
     App.convertedContent := lit "hello";
     App.targetFormat := lit "EPUB" |}.

End Samples.

(** ** Facts about the string built-ins *)

Module JSFacts.

Lemma eqb_spec (s t : jsstring) : reflect (s = t) (JS.eqb s t).
Proof.
  revert t; induction s as [|c s IH]; intros [|d t]; simpl;
    try (constructor; congruence).
  destruct (N.eqb_spec c d) as [->|Hcd]; simpl.
  - destruct (IH t) as [->|Hst]; constructor; congruence.
  - constructor; congruence.
Qed.

Lemma eqb_refl (s : jsstring) : JS.eqb s s = true.
Proof. destruct (eqb_spec s s); congruence. Qed.

Lemma eqb_neq (s t : jsstring) : s <> t -> JS.eqb s t = false.
Proof. destruct (eqb_spec s t); congruence. Qed.

(** Joining with the empty separator is concatenation. *)
Lemma join_empty (parts : list jsstring) : join [] parts = concat parts.
Proof.
  induction parts as [|p [|q rest] IH]; simpl in *.
  - reflexivity.
  - now rewrite app_nil_r.
  - now rewrite IH.
Qed.

Lemma trimStart_blank (s : jsstring) :
  truthy (trimStart s) = negb (forallb isWhiteSpace s).
Proof.
  induction s as [|c s IH]; simpl; [reflexivity|].
  destruct (isWhiteSpace c); simpl; [exact IH | reflexivity].
Qed.

Lemma truthy_rev (s : jsstring) : truthy (rev s) = truthy s.
Proof.
  destruct s as [|c s]; simpl; [reflexivity|].
  destruct (rev s); reflexivity.
Qed.

Lemma forallb_rev (f : char16 -> bool) (s : jsstring) :
  forallb f (rev s) = forallb f s.
Proof.
  induction s as [|c s IH]; simpl; [reflexivity|].
  rewrite forallb_app, IH; simpl. rewrite andb_true_r. apply andb_comm.
Qed.

Lemma trimStart_keeps (s : jsstring) :
  forallb isWhiteSpace (trimStart s) = forallb isWhiteSpace s.
Proof.
  induction s as [|c s IH]; simpl; [reflexivity|].
  destruct (isWhiteSpace c) eqn:E; simpl; [exact IH | now rewrite E].
Qed.

(** A line trims to the empty string exactly when it holds nothing but
    white space. *)
Lemma trim_blank (s : jsstring) :
  truthy (trim s) = negb (forallb isWhiteSpace s).
Proof.
  unfold trim, trimEnd.
  now rewrite truthy_rev, trimStart_blank, forallb_rev, trimStart_keeps.
Qed.

End JSFacts.

(** ** formatOutput *)

Section FormatOutput.

Import JSFacts.

Lemma paragraphs_filter (lines : list jsstring) :
  concat (map paragraph lines)
  = concat (map wrapParagraph (filter nonBlank lines)).
Proof.
  induction lines as [|l lines IH]; simpl; [reflexivity|].
  unfold paragraph at 1, nonBlank at 1. rewrite trim_blank.
  destruct (forallb isWhiteSpace l); simpl; now rewrite IH.
Qed.

(** C8: with the HTML tag the text is split on newline, the lines that are
    blank after trimming are dropped, every other line is wrapped
    untouched in a paragraph element, the paragraphs are joined without a
    separator and the whole is wrapped in the container element; the text
    "hello", newline, "world" gives the container around
    <p>hello</p><p>world</p>. *)
Theorem C8_html_wraps_nonblank_lines (now : Z) (text : jsstring) :
  formatOutput now text (lit "HTML")
  = tpl "<div class='converted-content'>" ++ [LF]
    ++ concat (map wrapParagraph (filter nonBlank (split LF text)))
    ++ [LF] ++ lit "</div>"
  /\ formatOutput now (lit "hello" ++ [LF] ++ lit "world") (lit "HTML")
     = tpl "<div class='converted-content'>
<p>hello</p><p>world</p>
</div>".
Proof.
  split; [|reflexivity].
  unfold formatOutput.
  change (JS.eqb (lit "HTML") (lit "JSON")) with false.
  change (JS.eqb (lit "HTML") (lit "PDF")) with false.
  change (JS.eqb (lit "HTML") (lit "EPUB")) with false.
  change (JS.eqb (lit "HTML") (lit "HTML")) with true.
  cbv iota; simpl orb; cbv iota.
  now rewrite join_empty, paragraphs_filter.
Qed.

End FormatOutput.

(** ** The timestamp of the JSON envelope *)

Section Timestamp.

Import JSFacts.

Lemma quoteUnit_plain (c : char16) :
  plainUnit c = true -> quoteUnit c = [c] /\ isLead c = false.
Proof.
  unfold plainUnit, quoteUnit, isLead, isTrail, backslash, dquote.
  intros H.
  repeat (apply andb_prop in H; destruct H as [H ?]).
  repeat match goal with
         | H : negb _ = true |- _ => apply negb_true_iff in H
         | H : (_ <=? _)%N = true |- _ => apply N.leb_le in H
         | H : (_ <? _)%N = true |- _ => apply N.ltb_lt in H
         | H : (_ =? _)%N = false |- _ => apply N.eqb_neq in H
         end.
  repeat match goal with
         | |- context [N.eqb c ?k] =>
             destruct (N.eqb_spec c k); [subst; lia|]
         | |- context [N.ltb c ?k] =>
             destruct (N.ltb_spec c k); [lia|]
         | |- context [N.leb ?k c] =>
             destruct (N.leb_spec k c)
         | |- context [N.leb c ?k] =>
             destruct (N.leb_spec c k)
         end; simpl; split; try reflexivity; lia.
Qed.

Lemma quoteBody_plain (s : jsstring) :
  forallb plainUnit s = true -> quoteBody s = s.
Proof.
  induction s as [|c s IH]; [reflexivity|].
  intros H; apply andb_prop in H; destruct H as [Hc Hs].
  destruct (quoteUnit_plain c Hc) as [Hq Hl].
  specialize (IH Hs).
  destruct s as [|d s]; simpl quoteBody; [exact Hq|].
  rewrite Hl; simpl andb; cbv iota.
  rewrite Hq. simpl app. f_equal. exact IH.
Qed.

Lemma padded_plain (width : nat) (n : Z) :
  forallb plainUnit (padded width n) = true.
Proof.
  revert n; induction width as [|w IH]; intros n; simpl; [reflexivity|].
  rewrite forallb_app, IH; simpl.
  assert (Hd : (0 <= n mod 10 < 10)%Z) by (apply Z.mod_pos_bound; lia).
  assert (Hc : In (n mod 10)%Z [0; 1; 2; 3; 4; 5; 6; 7; 8; 9]%Z)
    by (simpl; lia).
  simpl in Hc.
  repeat (destruct Hc as [<-|Hc]; [reflexivity|]). contradiction.
Qed.

Lemma isoYear_plain (y : Z) : forallb plainUnit (isoYear y) = true.
Proof.
  unfold isoYear.
  destruct ((0 <=? y)%Z && (y <=? 9999)%Z); [apply padded_plain|].
  rewrite forallb_app, padded_plain.
  now destruct (0 <=? y)%Z.
Qed.

Lemma toISOString_plain (t : Z) : forallb plainUnit (toISOString t) = true.
Proof.
  unfold toISOString.
  destruct (MonthAndDate _ _) as [m d].
  repeat rewrite forallb_app.
  now rewrite isoYear_plain, !padded_plain.
Qed.

(** The envelope is a fixed frame around the timestamp. *)
Lemma envelope_shape (text : jsstring) :
  exists head tail : jsstring, forall stamp,
    forallb plainUnit stamp = true ->
    stringify2 [(lit "generatedAt", stamp); (lit "content", text)]
    = head ++ stamp ++ tail.
Proof.
  exists (lit "{" ++ [LF] ++ lit "  " ++ quoteJSON (lit "generatedAt")
          ++ lit ": " ++ [dquote]).
  exists ([dquote] ++ (lit "," ++ [LF]) ++ property (lit "content", text)
          ++ [LF] ++ lit "}").
  intros stamp H.
  unfold stringify2. cbn [map join]. unfold property at 1. cbn [fst snd].
  unfold quoteJSON at 2. rewrite (quoteBody_plain _ H).
  repeat rewrite <- app_assoc. reflexivity.
Qed.

(** The envelopes of one text agree only when their timestamps do. *)
Lemma envelope_timestamp (stamp1 stamp2 text : jsstring) :
  forallb plainUnit stamp1 = true -> forallb plainUnit stamp2 = true ->
  stringify2 [(lit "generatedAt", stamp1); (lit "content", text)]
  = stringify2 [(lit "generatedAt", stamp2); (lit "content", text)] ->
  stamp1 = stamp2.
Proof.
  intros H1 H2 E.
  destruct (envelope_shape text) as (head & tail & Hshape).
  assert (E' : head ++ stamp1 ++ tail = head ++ stamp2 ++ tail).
  { etransitivity; [symmetry; exact (Hshape _ H1)|].
    etransitivity; [exact E | exact (Hshape _ H2)]. }
  apply app_inv_head in E'. exact (app_inv_tail _ _ _ E').
Qed.

(** C1 (amended): two calls with the same text and tag return the same
    string exactly when the tag is not JSON or the two calls read the same
    timestamp off the clock; for every tag but JSON the result does not
    depend on the time of the call. *)
Theorem C1_same_output_unless_json_clock_differs
    (now1 now2 : Z) (text format : jsstring) :
  formatOutput now1 text format = formatOutput now2 text format
  <-> (format <> lit "JSON" \/ toISOString now1 = toISOString now2).
Proof.
  unfold formatOutput. split.
  - destruct (eqb_spec format (lit "JSON")) as [->|Hne]; [|now left].
    intros E; right.
    exact (envelope_timestamp _ _ text (toISOString_plain now1)
             (toISOString_plain now2) E).
  - intros [Hne|E].
    + now rewrite (eqb_neq _ _ Hne).
    + now rewrite E.
Qed.

(** The tag HTML at two different times. *)
Lemma C1_witness :
  formatOutput 0 (lit "hello") (lit "HTML")
  = formatOutput 86400000 (lit "hello") (lit "HTML").
Proof.
  apply (proj2 (C1_same_output_unless_json_clock_differs
                  0 86400000 (lit "hello") (lit "HTML"))).
  left. discriminate.
Defined.

(** C1 as stated fails: the same text under the JSON tag, one millisecond
    apart. *)
Lemma C1_counterexample :
  formatOutput 0 (lit "hello") (lit "JSON")
  <> formatOutput 1 (lit "hello") (lit "JSON").
Proof. vm_compute. discriminate. Qed.

End Timestamp.

(** ** The escaping of the EPUB body *)

Section Escaping.

Lemma replaceAll_app (c : char16) (by_ s t : jsstring) :
  replaceAll c by_ (s ++ t) = replaceAll c by_ s ++ replaceAll c by_ t.
Proof. unfold replaceAll. apply flat_map_app. Qed.

Lemma escapeXml_app (s t : jsstring) :
  escapeXml (s ++ t) = escapeXml s ++ escapeXml t.
Proof. unfold escapeXml. now rewrite !replaceAll_app. Qed.

Lemma escapeXml_unit (c : char16) : escapeXml [c] = escapeUnit c.
Proof.
  unfold escapeUnit.
  destruct (N.eqb_spec c ampersand) as [->|Ha]; [reflexivity|].
  destruct (N.eqb_spec c less) as [->|Hl]; [reflexivity|].
  destruct (N.eqb_spec c greater) as [->|Hg]; [reflexivity|].
  destruct (N.eqb_spec c LF) as [->|Hn]; [reflexivity|].
  unfold escapeXml, replaceAll; simpl.
  rewrite (proj2 (N.eqb_neq c ampersand) Ha); simpl.
  rewrite (proj2 (N.eqb_neq c less) Hl); simpl.
  rewrite (proj2 (N.eqb_neq c greater) Hg); simpl.
  now rewrite (proj2 (N.eqb_neq c LF) Hn).
Qed.

(** C9: the four global substitutions, ampersand first, equal the
    character-wise mapping of ampersand, less-than, greater-than and
    newline to their markup with every other unit unchanged; in
    particular a less-than sign becomes [&lt;] and not [&amp;lt;]. *)
Theorem C9_escaping_is_characterwise (content : jsstring) :
  escapeXml content = flat_map escapeUnit content
  /\ escapeXml (lit "<") = lit "&lt;"
  /\ escapeXml (lit "<") <> lit "&amp;lt;".
Proof.
  split; [|split; [reflexivity | discriminate]].
  induction content as [|c content IH]; [reflexivity|].
  change (c :: content) with ([c] ++ content).
  rewrite escapeXml_app, escapeXml_unit, IH. reflexivity.
Qed.

End Escaping.

(** ** createEPUB *)

Section Epub.

Lemma startsWith_split (p s : jsstring) :
  startsWith p s = true -> exists rest, s = p ++ rest.
Proof.
  revert s; induction p as [|c p IH]; intros s H; simpl in *.
  - now exists s.
  - destruct s as [|d s]; [discriminate|].
    apply andb_prop in H; destruct H as [Hc Hs].
    apply N.eqb_eq in Hc; subst d.
    destruct (IH s Hs) as [rest ->]. now exists rest.
Qed.

Lemma endsWith_split (p s : jsstring) :
  endsWith p s = true -> exists front, s = front ++ p.
Proof.
  unfold endsWith; intros H.
  destruct (startsWith_split _ _ H) as [rest E].
  exists (rev rest).
  rewrite <- (rev_involutive s), E, rev_app_distr, rev_involutive.
  reflexivity.
Qed.

Lemma occursIn_skip (p a s : jsstring) : occursIn p s -> occursIn p (a ++ s).
Proof.
  intros (before & after & ->). exists (a ++ before), after.
  now rewrite <- app_assoc.
Qed.

(** A value spliced between two literals occurs with the end of the one
    and the start of the other around it. *)
Lemma occursIn_frame (x y t a b : jsstring) :
  endsWith x a = true -> startsWith y b = true ->
  occursIn (x ++ t ++ y) (a ++ t ++ b).
Proof.
  intros Ha Hb.
  destruct (endsWith_split _ _ Ha) as [front ->].
  destruct (startsWith_split _ _ Hb) as [rest ->].
  exists front, rest. now rewrite <- !app_assoc.
Qed.

(** C7: whatever the title and the content, the archive starts with the
    entry [mimetype], stored without compression and holding exactly
    [application/epub+zip]; the four documents all come after it, and no
    later entry bears its name. *)
Theorem C7_mimetype_first_and_stored
    (tOpf tNcx : Z) (title content : jsstring) :
  exists rest : list Written,
    createEPUB tOpf tNcx title content
    = {| path := lit "mimetype"; method := STORE;
         bytesOf := lit "application/epub+zip"; isFolder := false |} :: rest
    /\ incl [lit "META-INF/container.xml"; lit "OEBPS/content.xhtml";
             lit "OEBPS/content.opf"; lit "OEBPS/toc.ncx"] (map path rest)
    /\ ~ In (lit "mimetype") (map path rest).
Proof.
  eexists. split; [vm_compute; reflexivity|].
  split.
  - intros p Hp. vm_compute in Hp. vm_compute.
    repeat (destruct Hp as [<-|Hp]; [tauto|]). contradiction.
  - vm_compute. intros H.
    repeat (destruct H as [H|H]; [discriminate H|]). exact H.
Qed.

Lemma epub_documents (tOpf tNcx : Z) (title content : jsstring) :
  let epub := createEPUB tOpf tNcx title content in
  entryAt (lit "OEBPS/content.xhtml") epub
  = Some (contentXhtml title (escapeXml content))
  /\ entryAt (lit "OEBPS/content.opf") epub = Some (contentOpf tOpf title)
  /\ entryAt (lit "OEBPS/toc.ncx") epub = Some (tocNcx tNcx title).
Proof. repeat split; vm_compute; reflexivity. Qed.

(** C10: only the body is escaped, not the title: whatever the title, it
    stands as it is between the tags of the templates of content.xhtml
    (twice), content.opf and toc.ncx, so an ampersand or an angle bracket
    of the title is found bare in these documents, while the body stands
    there in its escaped form. *)
Theorem C10_title_is_not_escaped
    (tOpf tNcx : Z) (title content : jsstring) :
  let epub := createEPUB tOpf tNcx title content in
  exists xhtml opf ncx : jsstring,
    entryAt (lit "OEBPS/content.xhtml") epub = Some xhtml
    /\ entryAt (lit "OEBPS/content.opf") epub = Some opf
    /\ entryAt (lit "OEBPS/toc.ncx") epub = Some ncx
    /\ occursIn (lit "<title>" ++ title ++ lit "</title>") xhtml
    /\ occursIn (lit "<h1>" ++ title ++ lit "</h1>") xhtml
    /\ occursIn (lit "<dc:title>" ++ title ++ lit "</dc:title>") opf
    /\ occursIn (lit "<docTitle><text>" ++ title ++ lit "</text></docTitle>")
                ncx
    /\ occursIn (lit ">" ++ escapeXml content ++ lit "</div>") xhtml.
Proof.
  destruct (epub_documents tOpf tNcx title content) as (Hx & Ho & Hn).
  intros epub.
  exists (contentXhtml title (escapeXml content)),
         (contentOpf tOpf title), (tocNcx tNcx title).
  repeat (split; [assumption|]).
  unfold contentXhtml, contentOpf, tocNcx.
  split; [now apply occursIn_frame|].
  split; [do 2 apply occursIn_skip; now apply occursIn_frame|].
  split; [now apply occursIn_frame|].
  split; [do 2 apply occursIn_skip; now apply occursIn_frame|].
  do 4 apply occursIn_skip. now apply occursIn_frame.
Qed.

End Epub.

(** ** processPDF *)

Section Pdf.

Lemma pagesFrom_all (pdf : PDFDocument) (texts : list (list TextItem)) :
  forall (i : nat) (fullText : jsstring),
    (forall k items, nth_error texts k = Some items ->
       exists page, getPage pdf (i + k) = inr page
                    /\ getTextContent page = inr items) ->
    pagesFrom pdf i (length texts) fullText
    = inr (fullText ++ concat (map pageBlock texts)).
Proof.
  induction texts as [|items texts IH]; intros i fullText Hpages; simpl.
  - now rewrite app_nil_r.
  - destruct (Hpages O items eq_refl) as (page & Hpage & Hitems).
    rewrite Nat.add_0_r in Hpage. rewrite Hpage; simpl. rewrite Hitems; simpl.
    rewrite IH.
    + unfold pageBlock at 2. now rewrite <- !app_assoc.
    + intros k items' Hk. rewrite Nat.add_succ_comm. now apply (Hpages (S k)).
Qed.

Lemma countSeparators_other (c : char16) (s : jsstring) :
  c <> LF -> countSeparators (c :: s) = countSeparators s.
Proof.
  intros Hc. destruct s as [|d s]; [reflexivity|].
  cbn [countSeparators]. now rewrite (proj2 (N.eqb_neq c LF) Hc).
Qed.

Lemma countSeparators_skip (t s : jsstring) :
  ~ In LF t -> countSeparators (t ++ s) = countSeparators s.
Proof.
  induction t as [|c t IH]; intros Ht; [reflexivity|].
  simpl app. rewrite countSeparators_other.
  - apply IH. intros H; apply Ht; now right.
  - intros ->; apply Ht; now left.
Qed.

Lemma join_without (c : char16) (sep : jsstring) (parts : list jsstring) :
  ~ In c sep -> Forall (fun p => ~ In c p) parts -> ~ In c (join sep parts).
Proof.
  intros Hsep Hparts.
  induction Hparts as [|p parts Hp Hparts IH]; [easy|].
  destruct parts as [|q parts]; [exact Hp|].
  change (join sep (p :: q :: parts)) with (p ++ sep ++ join sep (q :: parts)).
  rewrite !in_app_iff. tauto.
Qed.

Lemma countSeparators_blocks (texts : list (list TextItem)) :
  Forall (Forall (fun item => ~ In LF (str item))) texts ->
  countSeparators (concat (map pageBlock texts)) = length texts.
Proof.
  induction 1 as [|items texts Hitems Htexts IH]; [reflexivity|].
  cbn [map concat length]. unfold pageBlock at 1, pageSeparator.
  cbn [app countSeparators]. rewrite N.eqb_refl. cbn [andb].
  rewrite countSeparators_skip, IH; [reflexivity|].
  apply join_without.
  - vm_compute. intros [H|[]]. discriminate H.
  - apply Forall_map. exact Hitems.
Qed.

(** C4 (amended): for a document that loads with N pages whose text
    contents are [texts], the result is the concatenation, for the pages
    1 to N in ascending order, of two newlines followed by the runs of
    the page joined by one space; a page without runs adds the two
    newlines alone; and, read from left to right, the result shows
    exactly N double newlines, one for each page and one before page 1,
    whenever no run holds a newline of its own. *)
Theorem C4_pdf_pages_in_order
    (h : Host) (data : list N) (getDocument : list N -> result PDFDocument)
    (pdf : PDFDocument) (texts : list (list TextItem)) :
  pdfLib h = Some getDocument ->
  getDocument data = inr pdf ->
  numPages pdf = length texts ->
  (forall k items, nth_error texts k = Some items ->
     exists page, getPage pdf (S k) = inr page
                  /\ getTextContent page = inr items) ->
  processPDF h data
  = inr (concat (map (fun items =>
                        [LF; LF] ++ join (lit " ") (map str items)) texts))
  /\ pageBlock [] = [LF; LF]
  /\ (Forall (Forall (fun item => ~ In LF (str item))) texts ->
      forall fullText, processPDF h data = inr fullText ->
                       countSeparators fullText = numPages pdf).
Proof.
  intros Hlib Hdoc Hcount Hpages.
  assert (Hrun : processPDF h data = inr (concat (map pageBlock texts))).
  { unfold processPDF. rewrite Hlib, Hdoc; simpl. rewrite Hcount.
    now rewrite (pagesFrom_all pdf texts 1 [] Hpages). }
  split; [exact Hrun|]. split; [reflexivity|].
  intros Hclean fullText Hfull. rewrite Hrun in Hfull.
  injection Hfull as <-. rewrite Hcount. now apply countSeparators_blocks.
Qed.

(** A three-page document whose second page is empty. *)
Lemma C4_witness :
  processPDF
    (Demo.host (Some (fun _ => ret (Demo.pdfOf [[lit "a"; lit "b"]; [];
                                                [lit "c"]]))) [])
    []
  = inr ([LF; LF] ++ lit "a b" ++ [LF; LF] ++ [LF; LF] ++ lit "c").
Proof.
  apply (C4_pdf_pages_in_order
           (Demo.host (Some (fun _ => ret (Demo.pdfOf [[lit "a"; lit "b"]; [];
                                                       [lit "c"]]))) [])
           [] (fun _ => ret (Demo.pdfOf [[lit "a"; lit "b"]; []; [lit "c"]]))
           (Demo.pdfOf [[lit "a"; lit "b"]; []; [lit "c"]])
           [[{| str := lit "a" |}; {| str := lit "b" |}]; [];
            [{| str := lit "c" |}]]).
  - reflexivity.
  - reflexivity.
  - reflexivity.
  - intros [|[|[|k]]] items Hk; simpl in Hk;
      try (injection Hk as <-; eexists; split; reflexivity).
    destruct k; discriminate Hk.
Defined.

(** C4 as stated fails: a one-page document whose single run holds two
    newlines gives a text with two double newlines, not one. *)
Lemma C4_counterexample :
  let pdf := Demo.pdfOf [[lit "a" ++ [LF; LF] ++ lit "b"]] in
  let h := Demo.host (Some (fun _ => ret pdf)) [] in
  numPages pdf = 1%nat
  /\ processPDF h [] = inr ([LF; LF] ++ lit "a" ++ [LF; LF] ++ lit "b")
  /\ countSeparators ([LF; LF] ++ lit "a" ++ [LF; LF] ++ lit "b") = 2%nat
  /\ (forall fullText, processPDF h [] = inr fullText ->
        countSeparators fullText <> numPages pdf).
Proof.
  intros pdf h. repeat split.
  intros fullText E. vm_compute in E. injection E as <-.
  vm_compute. discriminate.
Qed.

End Pdf.

(** ** processEPUB: the empty selection *)

Section EpubEmpty.

Lemma readMatched_none (files : ZipFiles) :
  (forall filename read, In (filename, read) files ->
     isContentDocument filename = false) ->
  readMatched files = inr [].
Proof.
  induction files as [|[filename read] files IH]; intros Hnone;
    [reflexivity|].
  simpl. rewrite (Hnone filename read (or_introl eq_refl)).
  apply IH. intros f r Hin. apply (Hnone f r). now right.
Qed.

(** C6: when the archive loads and none of its entries passes the
    content-document filter, the result is the fixed sentinel sentence,
    which is not the empty string, and nothing is thrown. *)
Theorem C6_no_match_gives_sentinel
    (h : Host) (data : list N) (targetFormat : jsstring) (files : ZipFiles) :
  loadAsync h data = inr files ->
  (forall filename read, In (filename, read) files ->
     (matchesContentSuffix filename
      && negb (startsWith (lit "__") filename)
      && negb (includes (lit "nav") filename)
      && negb (includes (lit "toc") filename)) = false) ->
  processEPUB h data targetFormat
  = inr (lit "Error: No text content extracted from EPUB.")
  /\ lit "Error: No text content extracted from EPUB." <> [].
Proof.
  intros Hload Hnone. split; [|discriminate].
  unfold processEPUB. rewrite Hload; simpl.
  now rewrite (readMatched_none files Hnone).
Qed.

(** An archive that holds nothing but navigation documents. *)
Lemma C6_witness :
  processEPUB (Demo.host None Demo.navigationOnly) [] (lit "Markdown")
  = inr (lit "Error: No text content extracted from EPUB.")
  /\ lit "Error: No text content extracted from EPUB." <> [].
Proof.
  apply (C6_no_match_gives_sentinel
           (Demo.host None Demo.navigationOnly) [] (lit "Markdown")
           Demo.navigationOnly).
  - reflexivity.
  - intros filename read Hin. simpl in Hin.
    repeat (destruct Hin as [Hin|Hin];
            [injection Hin as <- _; reflexivity|]).
    contradiction.
Defined.

End EpubEmpty.

(** ** convert: the error boundary *)

Section Boundary.

(** C5 (amended): once the payload decodes, a value thrown while
    extracting that is not [null] or [undefined] is caught and the
    preview is "PROCESSING ERROR: " followed by its message, or by
    "Unknown error" when it has no message or an empty one; without an
    error the preview is the formatted text.  What leaves [convert] is
    the error of the base64 decoding, raised before the guarded block is
    entered, or the error of the handler itself when the value it caught
    is [null] or [undefined], whose message cannot be read. *)
Theorem C5_errors_become_preview_text
    (h : Host) (now : Z) (fileData : FileData.t) (targetFormat : jsstring) :
  (forall binaryString message,
     decodeBase64 (FileData.base64 fileData) = inr binaryString ->
     extract h fileData (toBytes binaryString) targetFormat
     = inl (Thrown message) ->
     convert h now fileData targetFormat
     = inr (lit "PROCESSING ERROR: "
            ++ match message with
               | Some text => if truthy text then text
                              else lit "Unknown error"
               | None => lit "Unknown error"
               end))
  /\ (forall binaryString content,
        decodeBase64 (FileData.base64 fileData) = inr binaryString ->
        extract h fileData (toBytes binaryString) targetFormat = inr content ->
        convert h now fileData targetFormat
        = inr (formatOutput now content targetFormat))
  /\ (forall err,
        convert h now fileData targetFormat = inl err ->
        decodeBase64 (FileData.base64 fileData) = inl err
        \/ exists binaryString raised,
             decodeBase64 (FileData.base64 fileData) = inr binaryString
             /\ extract h fileData (toBytes binaryString) targetFormat
                = inl raised
             /\ (raised = ThrownNull \/ raised = ThrownUndefined))
  /\ (forall binaryString raised,
        decodeBase64 (FileData.base64 fileData) = inr binaryString ->
        extract h fileData (toBytes binaryString) targetFormat = inl raised ->
        raised = ThrownNull \/ raised = ThrownUndefined ->
        exists err, convert h now fileData targetFormat = inl err).
Proof.
  unfold convert. repeat split.
  - intros binaryString message -> Hex; simpl. now rewrite Hex.
  - intros binaryString content -> Hex; simpl. now rewrite Hex.
  - intros err. destruct (decodeBase64 _) as [e|binaryString]; simpl.
    + intros E; left; exact E.
    + destruct (extract _ _ _ _) as [raised|content] eqn:Hex; simpl;
        [|discriminate].
      destruct raised as [| |message]; simpl; try discriminate;
        intros _; right; exists binaryString; eexists;
        (split; [reflexivity|]); (split; [exact Hex|]); tauto.
  - intros binaryString raised -> Hex [->| ->]; simpl; rewrite Hex; simpl;
      eexists; reflexivity.
Qed.

(** A failing library whose error has a message of its own: the PDF
    library is missing. *)
Lemma C5_witness :
  convert (Demo.host None []) 0 (Demo.pdfFile (lit "aGVsbG8="))
          (lit "Markdown")
  = inr (lit "PROCESSING ERROR: PDF.js library not correctly initialized.").
Proof.
  apply (proj1 (C5_errors_become_preview_text
                  (Demo.host None []) 0 (Demo.pdfFile (lit "aGVsbG8="))
                  (lit "Markdown"))
           (lit "hello")
           (Some (lit "PDF.js library not correctly initialized."))).
  - reflexivity.
  - reflexivity.
Defined.

(** C5 as stated fails twice: an error with an empty message is not
    rendered as the bare prefix, and a rejection with [null] is not
    caught into a preview at all. *)
Lemma C5_counterexample :
  (extract (Demo.host (Some Demo.silentFailure) [])
           (Demo.pdfFile (lit "aGVsbG8=")) (toBytes (lit "hello"))
           (lit "Markdown")
   = inl (errorOf [])
   /\ convert (Demo.host (Some Demo.silentFailure) []) 0
              (Demo.pdfFile (lit "aGVsbG8=")) (lit "Markdown")
      = inr (lit "PROCESSING ERROR: Unknown error")
   /\ convert (Demo.host (Some Demo.silentFailure) []) 0
              (Demo.pdfFile (lit "aGVsbG8=")) (lit "Markdown")
      <> inr (lit "PROCESSING ERROR: " ++ []))
  /\ (extract (Demo.host (Some Demo.nullRejection) [])
              (Demo.pdfFile (lit "aGVsbG8=")) (toBytes (lit "hello"))
              (lit "Markdown")
      = inl ThrownNull
      /\ forall preview,
           convert (Demo.host (Some Demo.nullRejection) []) 0
                   (Demo.pdfFile (lit "aGVsbG8=")) (lit "Markdown")
           <> inr preview).
Proof.
  repeat split.
  - vm_compute. discriminate.
  - intros preview. vm_compute. discriminate.
Qed.

End Boundary.

(** ** Sorting with a comparator *)

Section Sorting.

Variable A : Type.
Variable cmp : A -> A -> Z.

Let le (a b : A) : Prop := (cmp a b <= 0)%Z.

Lemma insert_perm (x : A) (l : list A) : Permutation (insert cmp x l) (x :: l).
Proof.
  induction l as [|y l IH]; simpl; [reflexivity|].
  destruct (cmp x y <=? 0)%Z; [reflexivity|].
  rewrite IH. apply perm_swap.
Qed.

Lemma sort_perm (l : list A) : Permutation (sort cmp l) l.
Proof.
  induction l as [|x l IH]; simpl; [reflexivity|].
  rewrite insert_perm. now constructor.
Qed.

Hypothesis cmp_total : forall a b, le a b \/ le b a.
Hypothesis cmp_trans : forall a b c, le a b -> le b c -> le a c.

Lemma insert_sorted (x : A) (l : list A) :
  StronglySorted le l -> StronglySorted le (insert cmp x l).
Proof.
  induction 1 as [|y l Hl IH Hy]; simpl.
  - repeat constructor.
  - destruct (Z.leb_spec (cmp x y) 0) as [Hxy|Hxy].
    + constructor; [now constructor|].
      constructor; [exact Hxy|].
      eapply Forall_impl; [|exact Hy]. intros z Hz. now apply cmp_trans with y.
    + constructor; [exact IH|].
      assert (Hyx : le y x) by (destruct (cmp_total x y); [unfold le in *; lia | assumption]).
      rewrite Forall_forall in *. intros z Hz.
      apply (Permutation_in _ (insert_perm x l)) in Hz.
      destruct Hz as [<-|Hz]; [exact Hyx | now apply Hy].
Qed.

Lemma sort_sorted (l : list A) : StronglySorted le (sort cmp l).
Proof.
  induction l as [|x l IH]; simpl; [constructor | now apply insert_sorted].
Qed.

End Sorting.

(** ** The collation of the worked examples is a consistent comparator *)

Section Collation.

Local Open Scope Z_scope.

Lemma lexCompare_range (k l : list Z) :
  lexCompare k l = -1 \/ lexCompare k l = 0 \/ lexCompare k l = 1.
Proof.
  revert l; induction k as [|a k IH]; intros [|b l]; simpl; auto.
  destruct (a ?= b); auto.
Qed.

Lemma lexCompare_antisym (k l : list Z) : lexCompare l k = - lexCompare k l.
Proof.
  revert l; induction k as [|a k IH]; intros [|b l]; simpl; try reflexivity.
  rewrite (Z.compare_antisym a b).
  destruct (a ?= b); simpl; [apply IH | reflexivity | reflexivity].
Qed.

Lemma lexCompare_eq (k l : list Z) : lexCompare k l = 0 -> k = l.
Proof.
  revert l; induction k as [|a k IH]; intros [|b l]; simpl;
    try reflexivity; try discriminate.
  destruct (Z.compare_spec a b) as [Hab|Hab|Hab]; try discriminate.
  intros E. subst. f_equal. now apply IH.
Qed.

Lemma lexCompare_refl (k : list Z) : lexCompare k k = 0.
Proof.
  induction k as [|a k IH]; simpl; [reflexivity|].
  now rewrite Z.compare_refl.
Qed.

Lemma lexCompare_trans (k l m : list Z) :
  lexCompare k l <= 0 -> lexCompare l m <= 0 -> lexCompare k m <= 0.
Proof.
  revert l m; induction k as [|a k IH]; intros [|b l] [|c m]; simpl;
    try lia.
  destruct (Z.compare_spec a b), (Z.compare_spec b c), (Z.compare_spec a c);
    try lia; subst; try lia.
  apply IH.
Qed.

Lemma lexCompare_trans_strict (k l m : list Z) :
  lexCompare k l < 0 -> lexCompare l m <= 0 -> lexCompare k m < 0.
Proof.
  intros Hkl Hlm.
  assert (Hkm : lexCompare k m <= 0) by (apply lexCompare_trans with l; lia).
  destruct (Z.eq_dec (lexCompare k m) 0) as [E|]; [|lia].
  apply lexCompare_eq in E; subst m.
  rewrite (lexCompare_antisym k l) in Hlm. lia.
Qed.

Lemma collate_le (s t : jsstring) :
  collate s t <= 0 <->
  lexCompare (map primaryWeight s) (map primaryWeight t) < 0
  \/ (map primaryWeight s = map primaryWeight t
      /\ lexCompare (map caseWeight s) (map caseWeight t) <= 0).
Proof.
  unfold collate.
  destruct (lexCompare_range (map primaryWeight s) (map primaryWeight t))
    as [E|[E|E]]; rewrite E.
  - split; [left|]; lia.
  - split.
    + intros H; right. split; [now apply lexCompare_eq | exact H].
    + intros [H|[_ H]]; [lia | exact H].
  - split; [lia|]. intros [H|[H _]]; [lia|].
    rewrite H, lexCompare_refl in E. discriminate.
Qed.

Lemma collate_total (s t : jsstring) : collate s t <= 0 \/ collate t s <= 0.
Proof.
  rewrite !collate_le.
  pose proof (lexCompare_antisym (map primaryWeight s) (map primaryWeight t)) as Hp.
  pose proof (lexCompare_antisym (map caseWeight s) (map caseWeight t)) as Hc.
  destruct (lexCompare_range (map primaryWeight s) (map primaryWeight t))
    as [E|[E|E]].
  - left; left; lia.
  - apply lexCompare_eq in E.
    destruct (Z.le_gt_cases (lexCompare (map caseWeight s) (map caseWeight t)) 0).
    + left; right; now split.
    + right; right; split; [now symmetry | lia].
  - right; left; lia.
Qed.

Lemma collate_trans (s t u : jsstring) :
  collate s t <= 0 -> collate t u <= 0 -> collate s u <= 0.
Proof.
  rewrite !collate_le.
  intros [Hst|[Est Hst]] [Htu|[Etu Htu]].
  - left. apply lexCompare_trans_strict with (map primaryWeight t); lia.
  - left. now rewrite <- Etu.
  - left. now rewrite Est.
  - right. split; [congruence|].
    now apply lexCompare_trans with (map caseWeight t).
Qed.

End Collation.

(** ** processEPUB: the order of the documents *)

Section EpubOrder.

Local Open Scope Z_scope.

Lemma combine_from (h : Host) (files : list HtmlFile.t) (start : jsstring) :
  fold_left (fun combinedText file =>
               combinedText ++ pageSeparator ++ markdownOf h file)
            files start
  = start ++ concatenated h files.
Proof.
  revert start; induction files as [|file files IH]; intros start; simpl.
  - now rewrite app_nil_r.
  - rewrite IH. unfold concatenated; simpl. now rewrite <- !app_assoc.
Qed.

Lemma combine_concatenated (h : Host) (files : list HtmlFile.t) :
  combine h files = concatenated h files.
Proof. unfold combine. now rewrite combine_from. Qed.

Lemma readMatched_names (files : ZipFiles) :
  forall read, readMatched files = inr read ->
    map HtmlFile.name read = filter isContentDocument (map fst files).
Proof.
  induction files as [|[filename outcome] files IH]; intros read; simpl.
  - intros E; injection E as <-. reflexivity.
  - destruct (isContentDocument filename); [|exact (IH read)].
    destruct outcome as [err|str]; simpl; [discriminate|].
    destruct (readMatched files) as [err|others]; simpl; [discriminate|].
    intros E; injection E as <-. simpl. f_equal. now apply IH.
Qed.

(** C2 (amended): when the archive loads and its matched entries are
    read, the documents are concatenated in an order that is sorted for
    the comparison [localeCompare] makes of their paths, whatever the
    physical order of the entries and the order in which the reads
    complete; the documents concatenated are the matched entries, each
    once.  The comparison is the collation of the host, assumed to be a
    consistent comparator, and not the ordinal comparison of code units. *)
Theorem C2_documents_in_collation_order
    (h : Host) (data : list N) (targetFormat : jsstring)
    (files : ZipFiles) (read : list HtmlFile.t) :
  (forall s t, localeCompare h s t <= 0 \/ localeCompare h t s <= 0) ->
  (forall s t u, localeCompare h s t <= 0 -> localeCompare h t u <= 0 ->
                 localeCompare h s u <= 0) ->
  loadAsync h data = inr files ->
  readMatched files = inr read ->
  exists ordered : list HtmlFile.t,
    processEPUB h data targetFormat
    = inr (match ordered with
           | [] => lit "Error: No text content extracted from EPUB."
           | _ :: _ => concatenated h ordered
           end)
    /\ Permutation ordered read
    /\ map HtmlFile.name read = filter isContentDocument (map fst files)
    /\ StronglySorted (notAfter h) ordered.
Proof.
  intros Htotal Htrans Hload Hread.
  exists (sortedFiles h read). repeat split.
  - unfold processEPUB. rewrite Hload; simpl. rewrite Hread; simpl.
    rewrite combine_concatenated.
    destruct (sortedFiles h read) as [|file ordered]; reflexivity.
  - unfold sortedFiles, pushed. now rewrite !sort_perm.
  - now apply readMatched_names.
  - unfold sortedFiles. apply sort_sorted.
    + intros a b. apply Htotal.
    + intros a b c. apply Htrans.
Qed.

(** The two chapters, under the collation of the worked examples. *)
Lemma C2_witness :
  exists ordered : list HtmlFile.t,
    processEPUB (Demo.host None Demo.twoChapters) [] (lit "Markdown")
    = inr (match ordered with
           | [] => lit "Error: No text content extracted from EPUB."
           | _ :: _ => concatenated (Demo.host None Demo.twoChapters) ordered
           end)
    /\ Permutation ordered
         [{| HtmlFile.name := lit "a.xhtml"; HtmlFile.content := lit "one" |};
          {| HtmlFile.name := lit "B.xhtml"; HtmlFile.content := lit "two" |}]
    /\ map HtmlFile.name
         [{| HtmlFile.name := lit "a.xhtml"; HtmlFile.content := lit "one" |};
          {| HtmlFile.name := lit "B.xhtml"; HtmlFile.content := lit "two" |}]
       = filter isContentDocument (map fst Demo.twoChapters)
    /\ StronglySorted (notAfter (Demo.host None Demo.twoChapters)) ordered.
Proof.
  apply (C2_documents_in_collation_order
           (Demo.host None Demo.twoChapters) [] (lit "Markdown")
           Demo.twoChapters).
  - exact collate_total.
  - exact collate_trans.
  - reflexivity.
  - reflexivity.
Defined.

(** C2 as stated fails: of the chapters [a.xhtml] and [B.xhtml] the
    ordinal order puts [B.xhtml] first, the extractor [a.xhtml]. *)
Lemma C2_counterexample :
  let h := Demo.host None Demo.twoChapters in
  let chapterA :=
    {| HtmlFile.name := lit "a.xhtml"; HtmlFile.content := lit "one" |} in
  let chapterB :=
    {| HtmlFile.name := lit "B.xhtml"; HtmlFile.content := lit "two" |} in
  readMatched Demo.twoChapters = inr [chapterA; chapterB]
  /\ ordinalOrder [chapterA; chapterB] = [chapterB; chapterA]
  /\ processEPUB h [] (lit "Markdown")
     = inr ([LF; LF] ++ lit "one" ++ [LF; LF] ++ lit "two")
  /\ processEPUB h [] (lit "Markdown")
     <> inr (concatenated h (ordinalOrder [chapterA; chapterB])).
Proof. repeat split. vm_compute. discriminate. Qed.

End EpubOrder.

(** ** generateFile: the pagination of the PDF *)

Section Pagination.

Local Open Scope Q_scope.

Variable bottom : Q.

Lemma gtb_true (a b : Q) : gtb a b = true <-> b < a.
Proof.
  unfold gtb. rewrite negb_true_iff, <- not_true_iff_false, Qle_bool_iff.
  split; [apply Qnot_le_lt | apply Qlt_not_le].
Qed.

Lemma gtb_false (a b : Q) : gtb a b = false <-> a <= b.
Proof. unfold gtb. now rewrite negb_false_iff, Qle_bool_iff. Qed.

Lemma layout_step (doc : jsPDF) (cursorY : Q) (line : jsstring)
    (rest : list jsstring) :
  layout bottom (doc, cursorY) (line :: rest)
  = if gtb cursorY bottom
    then layout bottom (text line margin 20 (addPage doc), 20 + 6) rest
    else layout bottom (text line margin cursorY doc, cursorY + 6) rest.
Proof.
  unfold layout; simpl. now destruct (gtb cursorY bottom).
Qed.

Lemma layout_pages (lines : list jsstring) :
  forall doc cursorY,
    (pages doc <= pages (fst (layout bottom (doc, cursorY) lines)))%nat.
Proof.
  induction lines as [|line rest IH]; intros doc cursorY; [apply Nat.le_refl|].
  rewrite layout_step. destruct (gtb cursorY bottom).
  - etransitivity; [|apply IH]. simpl. lia.
  - etransitivity; [|apply IH]. simpl. lia.
Qed.

Lemma floor_ge (z : Z) (x : Q) : (z <= Qfloor x)%Z <-> inject_Z z <= x.
Proof.
  split; intros H.
  - apply Qle_trans with (inject_Z (Qfloor x)); [|apply Qfloor_le].
    now rewrite <- Zle_Qle.
  - destruct (Z.le_gt_cases z (Qfloor x)) as [Hle|Hgt]; [exact Hle|].
    exfalso. assert (Hz : (Qfloor x + 1 <= z)%Z) by lia.
    rewrite Zle_Qle in Hz. pose proof (Qlt_floor x) as Hx. lra.
Qed.

(** The capacity counts the positions of the first page. *)
Lemma capacity_spec (j : nat) :
  (j < firstPageCapacity bottom)%nat
  <-> 30 + 6 * inject_Z (Z.of_nat j) <= bottom.
Proof.
  assert (Hj : 0 <= inject_Z (Z.of_nat j))
    by (change 0 with (inject_Z 0); rewrite <- Zle_Qle; lia).
  unfold firstPageCapacity.
  destruct (Qle_bool 30 bottom) eqn:E.
  - apply Qle_bool_iff in E.
    assert (Hf : (0 <= Qfloor ((bottom - 30) * (1 # 6)))%Z)
      by (apply floor_ge; change (inject_Z 0) with 0; lra).
    transitivity (Z.of_nat j <= Qfloor ((bottom - 30) * (1 # 6)))%Z; [lia|].
    rewrite floor_ge. split; intros H; lra.
  - assert (Hb : ~ 30 <= bottom)
      by (rewrite <- Qle_bool_iff, E; discriminate).
    split; [lia|]. intros H. exfalso. apply Hb. lra.
Qed.

Lemma layout_first_page (lines : list jsstring) :
  forall doc (j : nat) cursorY,
    pages doc = 1%nat ->
    (j <= firstPageCapacity bottom)%nat ->
    cursorY == 30 + 6 * inject_Z (Z.of_nat j) ->
    (firstPageCapacity bottom < j + length lines)%nat
    <-> (1 < pages (fst (layout bottom (doc, cursorY) lines)))%nat.
Proof.
  induction lines as [|line rest IH]; intros doc j cursorY Hp Hj Hc.
  - simpl. rewrite Hp. lia.
  - rewrite layout_step. pose proof (capacity_spec j) as Hcap.
    destruct (gtb cursorY bottom) eqn:Hg.
    + apply gtb_true in Hg.
      assert (Hfull : ~ (j < firstPageCapacity bottom)%nat)
        by (rewrite Hcap; lra).
      pose proof (layout_pages rest (text line margin 20 (addPage doc)) (20 + 6))
        as Hmono.
      simpl pages in Hmono. simpl length. split; intros; lia.
    + apply gtb_false in Hg.
      assert (Hroom : (j < firstPageCapacity bottom)%nat)
        by (rewrite Hcap; lra).
      rewrite <- (IH (text line margin cursorY doc) (S j) (cursorY + 6)).
      * simpl length. lia.
      * exact Hp.
      * lia.
      * rewrite Nat2Z.inj_succ, <- Z.add_1_r, inject_Z_plus, Hc.
        change (inject_Z 1) with 1. ring.
Qed.

Hypothesis page_holds_a_line : 20 <= bottom.
Hypothesis bottom_off_grid : forall k : Z, ~ bottom == inject_Z k.

Lemma layout_body (lines : list jsstring) :
  forall doc cursorY,
    20 <= cursorY -> (exists z : Z, cursorY == inject_Z z) ->
    exists body : list TextOp,
      ops (fst (layout bottom (doc, cursorY) lines)) = ops doc ++ body
      /\ map shown body = lines
      /\ (forall first, hd_error body = Some first ->
            startsFrom bottom (pages doc) cursorY first)
      /\ LocallySorted (followsOn bottom) body
      /\ Forall (fun op => 15 < atY op /\ atY op < bottom) body
      /\ Forall (fun op =>
                   (pages doc <= onPage op
                    <= pages (fst (layout bottom (doc, cursorY) lines)))%nat)
                body.
Proof.
  induction lines as [|line rest IH]; intros doc cursorY Hlow [z Hz].
  - exists []. simpl. rewrite app_nil_r.
    repeat split; try constructor. discriminate.
  - rewrite layout_step.
    assert (Hnext : forall doc1 y, 20 <= y -> y <= bottom ->
              (exists k : Z, y == inject_Z k) ->
              (pages doc <= pages doc1)%nat ->
              ops doc1 = ops doc ->
              startsFrom bottom (pages doc) cursorY
                {| onPage := pages doc1; atSize := fontSize doc1;
                   shown := line; atX := margin; atY := y |} ->
              exists body : list TextOp,
                ops (fst (layout bottom (text line margin y doc1, y + 6) rest))
                = ops doc ++ body
                /\ map shown body = line :: rest
                /\ (forall first, hd_error body = Some first ->
                      startsFrom bottom (pages doc) cursorY first)
                /\ LocallySorted (followsOn bottom) body
                /\ Forall (fun op => 15 < atY op /\ atY op < bottom) body
                /\ Forall (fun op =>
                     (pages doc <= onPage op
                      <= pages (fst (layout bottom
                                       (text line margin y doc1, (y + 6)%Q)
                                       rest)))%nat)
                     body).
    { intros doc1 y Hy Hyb [k Hk] Hp Hops Hstart.
      destruct (IH (text line margin y doc1) (y + 6)) as
        (body & Hbody & Hshown & Hhead & Hchain & Hbounds & Hrange).
      - lra.
      - exists (k + 6)%Z. rewrite inject_Z_plus, Hk. reflexivity.
      - pose proof (layout_pages rest (text line margin y doc1) (y + 6)) as Hmono.
        simpl pages in Hmono, Hrange.
        exists ({| onPage := pages doc1; atSize := fontSize doc1;
                   shown := line; atX := margin; atY := y |} :: body).
        split; [|split; [|split; [|split; [|split]]]].
        + rewrite Hbody. simpl. rewrite Hops, <- app_assoc. reflexivity.
        + simpl. now rewrite Hshown.
        + intros first E; injection E as <-. exact Hstart.
        + destruct body as [|next body]; constructor; [exact Hchain|].
          apply (Hhead next eq_refl).
        + constructor; [|exact Hbounds]. simpl. split; [lra|].
          destruct (Qlt_le_dec y bottom) as [Hlt|Hge]; [exact Hlt|].
          exfalso. apply (bottom_off_grid k). lra.
        + constructor.
          * simpl. lia.
          * eapply Forall_impl; [|exact Hrange]. simpl. intros op. lia. }
    destruct (gtb cursorY bottom) eqn:Hg.
    + apply Hnext.
      * lra.
      * exact page_holds_a_line.
      * exists 20%Z. reflexivity.
      * simpl. lia.
      * reflexivity.
      * unfold startsFrom. rewrite Hg. now split.
    + apply Hnext.
      * exact Hlow.
      * now apply gtb_false.
      * now exists z.
      * lia.
      * reflexivity.
      * unfold startsFrom. rewrite Hg. now split.
Qed.

End Pagination.

(** ** generateFile with the PDF tag *)

Section PdfFile.

Local Open Scope Q_scope.

(** C3: the page break is decided for each wrapped line: a line whose
    cursor is beyond the page height less the margin of 15 goes to a new
    page, at 20 from the top, and every other line 6 units below the line
    before it; so a document has more than one page exactly when its
    wrapped lines are more than fit on the first page, and every line,
    the title included, is drawn strictly between the margin and the page
    height less the margin.  The page height is the one of the PDF
    library: a page holds a line, and its content bottom is not a whole
    number of units. *)
Theorem C3_pdf_breaks_pages_line_by_line
    (h : Host) (safeTitle content : jsstring) :
  20 <= pageHeight h - 15 ->
  (forall k : Z, ~ pageHeight h - 15 == inject_Z k) ->
  let bottom := pageHeight h - 15 in
  let splitText := splitTextToSize h 11 content (pageWidth h - 15 * 2) in
  let doc := pdfDocument h safeTitle content in
  exists (titleOp : TextOp) (body : list TextOp),
    ops doc = titleOp :: body
    /\ (shown titleOp = safeTitle /\ onPage titleOp = 1%nat
        /\ atY titleOp = 20)
    /\ map shown body = splitText
    /\ (forall first, hd_error body = Some first ->
          if gtb 30 bottom
          then onPage first = 2%nat /\ atY first = 20
          else onPage first = 1%nat /\ atY first = 30)
    /\ LocallySorted
         (fun previous next =>
            if gtb (atY previous + 6) bottom
            then onPage next = S (onPage previous) /\ atY next = 20
            else onPage next = onPage previous
                 /\ atY next = atY previous + 6)
         body
    /\ ((firstPageCapacity bottom < length splitText)%nat
        <-> (1 < pages doc)%nat)
    /\ Forall (fun op => 15 < atY op /\ atY op < pageHeight h - 15) (ops doc)
    /\ Forall (fun op => (1 <= onPage op <= pages doc)%nat) (ops doc).
Proof.
  intros Hfit Hgrid bottom splitText doc.
  pose (titled := setFontSize 11 (text safeTitle margin 20
                                    (setFontSize 16 newPDF))).
  destruct (layout_body bottom Hfit Hgrid splitText titled 30)
    as (body & Hops & Hshown & Hhead & Hchain & Hbounds & Hrange).
  - lra.
  - exists 30%Z. reflexivity.
  - assert (Hdoc : doc = fst (layout bottom (titled, 30) splitText))
      by reflexivity.
    rewrite <- Hdoc in Hops, Hrange.
    exists {| onPage := 1; atSize := 16; shown := safeTitle; atX := margin;
              atY := 20 |}, body.
    split; [exact Hops|]. split; [repeat split|].
    split; [exact Hshown|]. split; [exact Hhead|]. split; [exact Hchain|].
    split.
    { rewrite Hdoc.
      apply (layout_first_page bottom splitText titled 0 30);
        [reflexivity | lia | reflexivity]. }
    rewrite Hops. split.
    + constructor; [|exact Hbounds]. simpl. split; [lra|].
      destruct (Qlt_le_dec 20 bottom) as [Hlt|Hge]; [exact Hlt|].
      exfalso. apply (Hgrid 20%Z). change (inject_Z 20) with 20.
      fold bottom in Hfit. fold bottom. lra.
    + constructor; [|exact Hrange]. simpl.
      pose proof (layout_pages bottom splitText titled 30) as Hmono.
      rewrite <- Hdoc in Hmono. simpl pages in Hmono. lia.
Qed.

(** The default page holds 43 lines below the title. *)
Example a4_first_page_capacity :
  firstPageCapacity (Demo.a4Height - 15) = 43%nat.
Proof. reflexivity. Qed.

(** On the default page the title and 43 lines fill the first page, the
    last of them at 282, just above the bottom at 282.0000833; the next
    line opens the second page at 20. *)
Example a4_page_turn :
  let doc := pdfDocument (Demo.host None []) (lit "book") Demo.fiftyLines in
  pages doc = 2%nat
  /\ map (fun op => (onPage op, atY op)) (firstn 2 (skipn 43 (ops doc)))
     = [(1%nat, 282); (2%nat, 20)].
Proof. split; reflexivity. Qed.

(** Fifty lines on the default page of the PDF library. *)
Lemma C3_witness :
  let h := Demo.host None [] in
  let doc := pdfDocument h (lit "book") Demo.fiftyLines in
  20 <= pageHeight h - 15
  /\ (forall k : Z, ~ pageHeight h - 15 == inject_Z k)
  /\ (1 < pages doc)%nat
  /\ Forall (fun op => 15 < atY op /\ atY op < pageHeight h - 15) (ops doc).
Proof.
  intros h doc.
  assert (Hfit : 20 <= pageHeight h - 15)
    by (unfold Qle; simpl; lia).
  assert (Hgrid : forall k : Z, ~ pageHeight h - 15 == inject_Z k)
    by (intros k; unfold Qeq; simpl; lia).
  destruct (C3_pdf_breaks_pages_line_by_line h (lit "book") Demo.fiftyLines
              Hfit Hgrid)
    as (titleOp & body & _ & _ & _ & _ & _ & Hpages & Hbounds & _).
  split; [exact Hfit|]. split; [exact Hgrid|].
  split; [|exact Hbounds].
  apply Hpages. apply Nat.ltb_lt. reflexivity.
Defined.

End PdfFile.

(** ** The title of a download: removeExtension *)

Section Titles.

Import JSFacts.

Lemma extensionLength_app (ext : jsstring) (c : char16) (rest : jsstring) :
  forallb inExtension ext = true -> inExtension c = false ->
  extensionLength (ext ++ c :: rest) = length ext.
Proof.
  unfold inExtension. intros Hext Hc.
  induction ext as [|d ext IH]; simpl in *.
  - apply negb_false_iff in Hc. now rewrite Hc.
  - apply andb_prop in Hext. destruct Hext as [Hd Hext].
    apply negb_true_iff in Hd. rewrite Hd. f_equal. now apply IH.
Qed.

Lemma extensionLength_firstn (r : jsstring) :
  forallb inExtension (firstn (extensionLength r) r) = true
  /\ (extensionLength r <= length r)%nat.
Proof.
  induction r as [|c r [IH1 IH2]]; simpl; [split; [reflexivity | lia]|].
  destruct (N.eqb c 46 || N.eqb c slash) eqn:E; simpl.
  - split; [reflexivity | lia].
  - unfold inExtension at 1. rewrite E. simpl. split; [exact IH1 | lia].
Qed.

Lemma removeExtension_stem (stem ext : jsstring) :
  ext <> [] ->
  forallb inExtension ext = true ->
  removeExtension (stem ++ [46%N] ++ ext) = stem.
Proof.
  intros Hne Hext. unfold removeExtension.
  assert (Hr : rev (stem ++ [46%N] ++ ext) = rev ext ++ 46%N :: rev stem).
  { rewrite !rev_app_distr. simpl. now rewrite <- app_assoc. }
  rewrite Hr.
  rewrite extensionLength_app; [|now rewrite forallb_rev | reflexivity].
  destruct (length (rev ext)) as [|n] eqn:E.
  - rewrite length_rev in E. destruct ext; [congruence | discriminate].
  - assert (Hs : skipn (S n) (rev ext ++ 46%N :: rev stem) = 46%N :: rev stem).
    { rewrite <- E, skipn_app, skipn_all, Nat.sub_diag. reflexivity. }
    rewrite Hs, N.eqb_refl. apply rev_involutive.
Qed.

(** A final dot followed by an extension, at least one unit and none of
    them a dot or a slash, is cut off with the extension: what is left is
    the text before that dot, whatever it holds. *)
Theorem removeExtension_cuts_last_extension (stem ext : jsstring) :
  ext <> [] ->
  forallb inExtension ext = true ->
  removeExtension (stem ++ [46%N] ++ ext) = stem.
Proof. exact (removeExtension_stem stem ext). Qed.

(** "archive.tar.gz" loses its last extension only. *)
Lemma removeExtension_cuts_last_extension_witness :
  removeExtension (lit "archive.tar" ++ [46%N] ++ lit "gz") = lit "archive.tar".
Proof.
  apply (removeExtension_cuts_last_extension (lit "archive.tar") (lit "gz")).
  - discriminate.
  - reflexivity.
Defined.

(** A title is kept as it is when it has no such extension: no dot at
    all, or nothing after the last dot, or a slash after it. *)
Theorem removeExtension_keeps_other_titles (title : jsstring) :
  (forall stem ext, title = stem ++ [46%N] ++ ext ->
     ext = [] \/ forallb inExtension ext = false) ->
  removeExtension title = title.
Proof.
  intros Hnone. unfold removeExtension.
  destruct (extensionLength_firstn (rev title)) as [Hfirst Hle].
  destruct (extensionLength (rev title)) as [|n] eqn:En; [reflexivity|].
  destruct (skipn (S n) (rev title)) as [|c before] eqn:Es; [reflexivity|].
  destruct (N.eqb_spec c 46) as [->|]; [|reflexivity].
  exfalso.
  pose proof (firstn_skipn (S n) (rev title)) as Hsplit. rewrite Es in Hsplit.
  assert (Htitle : title = rev before ++ [46%N] ++ rev (firstn (S n) (rev title))).
  { apply (f_equal (@rev _)) in Hsplit.
    rewrite rev_involutive, rev_app_distr in Hsplit. simpl rev in Hsplit.
    rewrite <- app_assoc in Hsplit. symmetry. exact Hsplit. }
  destruct (Hnone _ _ Htitle) as [Hempty|Hbad].
  - apply (f_equal (@length _)) in Hempty.
    rewrite length_rev, length_firstn in Hempty. simpl length in Hempty. lia.
  - rewrite forallb_rev, Hfirst in Hbad. discriminate.
Qed.

(** A title without any dot. *)
Lemma removeExtension_keeps_other_titles_witness :
  removeExtension (lit "nebula_doc") = lit "nebula_doc".
Proof.
  apply removeExtension_keeps_other_titles.
  intros stem ext E. exfalso.
  assert (Hin : In 46%N (lit "nebula_doc"))
    by (rewrite E; apply in_or_app; right; now left).
  vm_compute in Hin.
  repeat (destruct Hin as [Hin|Hin]; [discriminate Hin|]). exact Hin.
Defined.

End Titles.

(** ** generateFile: the text downloads *)

Section TextDownloads.

Import JSFacts.

Lemma extension_of_format
    (h : Host) (tOpf tNcx : Z) (content format title : jsstring) :
  extension (generateFile h tOpf tNcx content format title)
  = extensionFor format.
Proof.
  unfold generateFile, extensionFor.
  destruct (eqb_spec format (lit "PDF")) as [->|]; [reflexivity|].
  destruct (eqb_spec format (lit "EPUB")) as [->|]; [reflexivity|].
  destruct (eqb_spec format (lit "Markdown")) as [->|]; [reflexivity|].
  destruct (eqb_spec format (lit "HTML")) as [->|]; [reflexivity|].
  destruct (eqb_spec format (lit "JSON")) as [->|]; reflexivity.
Qed.

(** For every tag but PDF and EPUB the download is a blob of the given
    text, unchanged and not formatted again, whose type and extension
    follow the tag: md, html and json for Markdown, HTML and JSON, and txt
    with text/plain for any other tag, known or not. *)
Theorem generateFile_text_blob_is_the_content
    (h : Host) (tOpf tNcx : Z) (content format title : jsstring) :
  format <> lit "PDF" -> format <> lit "EPUB" ->
  generateFile h tOpf tNcx content format title
  = {| blob := TextBlob content (mimeFor format);
       extension := extensionFor format |}.
Proof.
  intros Hpdf Hepub. unfold generateFile, extensionFor, mimeFor.
  rewrite (eqb_neq _ _ Hpdf), (eqb_neq _ _ Hepub).
  destruct (eqb_spec format (lit "Markdown")) as [->|]; [reflexivity|].
  destruct (eqb_spec format (lit "HTML")) as [->|]; [reflexivity|].
  destruct (eqb_spec format (lit "JSON")) as [->|]; reflexivity.
Qed.

(** The tag "Plain Text" of the component, which the service does not
    name. *)
Lemma generateFile_text_blob_is_the_content_witness :
  generateFile (Demo.host None []) 0 0 (lit "hello") (lit "Plain Text")
               (lit "notes.txt")
  = {| blob := TextBlob (lit "hello") (lit "text/plain");
       extension := lit "txt" |}.
Proof.
  apply (generateFile_text_blob_is_the_content
           (Demo.host None []) 0 0 (lit "hello") (lit "Plain Text")
           (lit "notes.txt")); discriminate.
Defined.

(** For each of the six formats the component offers, the label of the
    download button names, in capitals, the extension the service gives
    the file that is downloaded. *)
Theorem download_label_names_the_extension
    (h : Host) (tOpf tNcx tName : Z) (s : App.State) :
  In (App.targetFormat s) App.formats ->
  App.downloadLabel s
  = lit "DOWNLOAD ."
    ++ map upperUnit
         (extension (snd (App.downloadResult h tOpf tNcx tName s))).
Proof.
  intros Hin. unfold App.downloadResult. cbn [snd].
  rewrite extension_of_format. unfold App.downloadLabel.
  unfold App.formats in Hin. simpl in Hin.
  repeat (destruct Hin as [Hin|Hin]; [rewrite <- Hin; reflexivity|]).
  contradiction.
Qed.

(** The format the component starts with. *)
Lemma download_label_names_the_extension_witness :
  App.downloadLabel App.initial
  = lit "DOWNLOAD ."
    ++ map upperUnit
         (extension (snd (App.downloadResult (Demo.host None []) 0 0 0
                            App.initial))).
Proof.
  apply (download_label_names_the_extension (Demo.host None []) 0 0 0
           App.initial).
  now left.
Defined.

End TextDownloads.

(** ** convert: decoding and dispatch *)

Section Dispatch.

Import JSFacts.

Lemma sextet_bound (c : char16) (v : N) : sextet c = Some v -> (v < 64)%N.
Proof.
  unfold sextet.
  destruct (isUpper c) eqn:Eu.
  { unfold isUpper in Eu. apply andb_prop in Eu. destruct Eu as [H1 H2].
    apply N.leb_le in H1, H2. intros E; injection E as <-. lia. }
  destruct (isLower c) eqn:El.
  { unfold isLower in El. apply andb_prop in El. destruct El as [H1 H2].
    apply N.leb_le in H1, H2. intros E; injection E as <-. lia. }
  destruct (isDigit c) eqn:Ed.
  { unfold isDigit in Ed. apply andb_prop in Ed. destruct Ed as [H1 H2].
    apply N.leb_le in H1, H2. intros E; injection E as <-. lia. }
  destruct (N.eqb c 43); [intros E; injection E as <-; lia|].
  destruct (N.eqb c 47); [intros E; injection E as <-; lia|].
  discriminate.
Qed.

Lemma sextets_bound (s : jsstring) :
  forall vs, sextets s = Some vs -> Forall (fun v => (v < 64)%N) vs.
Proof.
  induction s as [|c s IH]; intros vs; simpl.
  - intros E; injection E as <-. constructor.
  - destruct (sextet c) as [v|] eqn:Ev; [|discriminate].
    destruct (sextets s) as [vs'|]; [|discriminate].
    intros E; injection E as <-.
    constructor; [now apply sextet_bound with c | now apply IH].
Qed.

Lemma octet_high (a b : N) :
  (a < 64 -> b < 64 -> a * 4 + b / 16 < 256)%N.
Proof.
  intros Ha Hb.
  assert (b / 16 < 4)%N by (apply N.Div0.div_lt_upper_bound; lia). lia.
Qed.

Lemma octet_middle (b c : N) : (c < 64 -> (b mod 16) * 16 + c / 4 < 256)%N.
Proof.
  intros Hc.
  assert (c / 4 < 16)%N by (apply N.Div0.div_lt_upper_bound; lia).
  assert (b mod 16 < 16)%N by (apply N.mod_lt; lia). lia.
Qed.

Lemma octet_low (c d : N) : (d < 64 -> (c mod 4) * 64 + d < 256)%N.
Proof.
  intros Hd. assert (c mod 4 < 4)%N by (apply N.mod_lt; lia). lia.
Qed.

Lemma octets_bound (n : nat) :
  forall vs, (length vs <= n)%nat -> Forall (fun v => (v < 64)%N) vs ->
             Forall (fun b => (b < 256)%N) (octets vs).
Proof.
  induction n as [|n IH]; intros vs Hlen Hvs.
  - destruct vs; [constructor | simpl in Hlen; lia].
  - destruct vs as [|a [|b [|c [|d rest]]]]; cbn [octets].
    + constructor.
    + constructor.
    + inversion Hvs as [|? ? Ha Hvs1]; subst.
      inversion Hvs1 as [|? ? Hb Hvs2]; subst.
      constructor; [now apply octet_high | constructor].
    + inversion Hvs as [|? ? Ha Hvs1]; subst.
      inversion Hvs1 as [|? ? Hb Hvs2]; subst.
      inversion Hvs2 as [|? ? Hc Hvs3]; subst.
      constructor; [now apply octet_high|].
      constructor; [now apply octet_middle | constructor].
    + inversion Hvs as [|? ? Ha Hvs1]; subst.
      inversion Hvs1 as [|? ? Hb Hvs2]; subst.
      inversion Hvs2 as [|? ? Hc Hvs3]; subst.
      inversion Hvs3 as [|? ? Hd Hvs4]; subst.
      constructor; [now apply octet_high|].
      constructor; [now apply octet_middle|].
      constructor; [now apply octet_low|].
      apply IH; [simpl in Hlen; lia | exact Hvs4].
Qed.

Lemma toBytes_small (b : jsstring) :
  Forall (fun c => (c < 256)%N) b -> toBytes b = b.
Proof.
  unfold toBytes. induction 1 as [|c b Hc Hb IH]; simpl; [reflexivity|].
  rewrite IH, N.mod_small; [reflexivity | exact Hc].
Qed.

Lemma atob_octets (encoded binaryString : jsstring) :
  atob encoded = Some binaryString ->
  Forall (fun c => (c < 256)%N) binaryString
  /\ toBytes binaryString = binaryString.
Proof.
  intros E.
  assert (H : Forall (fun c => (c < 256)%N) binaryString).
  { unfold atob in E.
    destruct (Nat.eqb _ 1); [discriminate|].
    destruct (sextets _) as [vs|] eqn:Ev; [|discriminate].
    injection E as <-.
    apply (octets_bound (length vs)); [lia|].
    now apply sextets_bound with (1 := Ev). }
  split; [exact H | now apply toBytes_small].
Qed.

(** Whatever text [atob] accepts, what it yields is made of octets, so
    the byte array filled from it holds the decoded data as they are:
    storing the units as bytes loses nothing. *)
Theorem decoded_payload_is_stored_unchanged
    (encoded binaryString : jsstring) :
  atob encoded = Some binaryString ->
  Forall (fun c => (c < 256)%N) binaryString
  /\ toBytes binaryString = binaryString.
Proof. exact (atob_octets encoded binaryString). Qed.

Lemma decoded_payload_is_stored_unchanged_witness :
  Forall (fun c => (c < 256)%N) (lit "hello")
  /\ toBytes (lit "hello") = lit "hello".
Proof.
  apply (decoded_payload_is_stored_unchanged (lit "aGVsbG8=") (lit "hello")).
  reflexivity.
Defined.

Lemma formatOutput_passthrough (now : Z) (text format : jsstring) :
  format <> lit "JSON" -> format <> lit "HTML" ->
  formatOutput now text format = text.
Proof.
  intros Hj Hh. unfold formatOutput.
  rewrite (eqb_neq _ _ Hj), (eqb_neq _ _ Hh).
  now destruct (JS.eqb format (lit "PDF") || JS.eqb format (lit "EPUB")).
Qed.

(** A file that is neither declared a PDF nor recognised as an EPUB, and
    whose payload decodes, is previewed as the text its bytes decode to,
    unchanged, under every tag but JSON and HTML: nothing is thrown and
    no part of the text is altered on the way. *)
Theorem text_file_is_previewed_as_decoded
    (h : Host) (now : Z) (fileData : FileData.t) (targetFormat : jsstring)
    (binaryString : jsstring) :
  atob (FileData.base64 fileData) = Some binaryString ->
  FileData.type fileData <> lit "application/pdf" ->
  includes (lit "epub") (FileData.type fileData) = false ->
  endsWith (lit ".epub") (toLowerCase (FileData.name fileData)) = false ->
  targetFormat <> lit "JSON" -> targetFormat <> lit "HTML" ->
  convert h now fileData targetFormat = inr (utf8Decode h binaryString).
Proof.
  intros Hatob Hpdf Hepub Hname Hj Hh.
  destruct (atob_octets _ _ Hatob) as [_ Hbytes].
  unfold convert, decodeBase64. rewrite Hatob; simpl.
  unfold extract. rewrite (eqb_neq _ _ Hpdf), Hepub, Hname; simpl.
  now rewrite Hbytes, formatOutput_passthrough.
Qed.

Lemma text_file_is_previewed_as_decoded_witness :
  convert (Demo.host None []) 0 Samples.notes (lit "Markdown")
  = inr (lit "hello").
Proof.
  apply (text_file_is_previewed_as_decoded
           (Demo.host None []) 0 Samples.notes (lit "Markdown") (lit "hello"));
    try reflexivity; discriminate.
Defined.

Lemma startsWith_app (p r : jsstring) : startsWith p (p ++ r) = true.
Proof.
  induction p as [|c p IH]; simpl; [reflexivity|].
  now rewrite N.eqb_refl, IH.
Qed.

Lemma endsWith_app (front p : jsstring) : endsWith p (front ++ p) = true.
Proof. unfold endsWith. rewrite rev_app_distr. apply startsWith_app. Qed.

(** The extractor is chosen by the declared type first: a file declared
    application/pdf goes to the PDF extractor whatever its name; any other
    file whose name ends with .epub, in small or capital letters, goes to
    the EPUB extractor whatever its type, the empty type included. *)
Theorem extractor_is_chosen_by_type_then_name
    (h : Host) (fileData : FileData.t) (bytes : list N)
    (targetFormat stem ext : jsstring) :
  FileData.name fileData = stem ++ ext ->
  toLowerCase ext = lit ".epub" ->
  (FileData.type fileData = lit "application/pdf" ->
   extract h fileData bytes targetFormat = processPDF h bytes)
  /\ (FileData.type fileData <> lit "application/pdf" ->
      extract h fileData bytes targetFormat
      = processEPUB h bytes targetFormat).
Proof.
  intros Hname Hext. unfold extract. split.
  - intros ->. reflexivity.
  - intros Hpdf. rewrite (eqb_neq _ _ Hpdf), Hname.
    unfold toLowerCase in *. rewrite map_app, Hext, endsWith_app.
    now rewrite orb_true_r.
Qed.

Lemma extractor_is_chosen_by_type_then_name_witness :
  extract (Demo.host None Demo.twoChapters) Samples.shoutedBook []
          (lit "Markdown")
  = processEPUB (Demo.host None Demo.twoChapters) [] (lit "Markdown").
Proof.
  apply (extractor_is_chosen_by_type_then_name
           (Demo.host None Demo.twoChapters) Samples.shoutedBook []
           (lit "Markdown") (lit "BOOK") (lit ".EPUB")).
  - reflexivity.
  - reflexivity.
  - discriminate.
Defined.

End Dispatch.

(** ** processPDF: a page that cannot be read *)

Section PdfFailure.

Lemma pagesFrom_fails (pdf : PDFDocument) (err : Error) (k : nat) :
  forall (i remaining : nat) (fullText : jsstring),
    (k < remaining)%nat ->
    (forall j, (j < k)%nat ->
       exists page items, getPage pdf (i + j) = inr page
                          /\ getTextContent page = inr items) ->
    (getPage pdf (i + k) = inl err
     \/ exists page, getPage pdf (i + k) = inr page
                     /\ getTextContent page = inl err) ->
    pagesFrom pdf i remaining fullText = inl err.
Proof.
  induction k as [|k IH]; intros i remaining fullText Hk Hbefore Hfail.
  - destruct remaining as [|remaining]; [lia|]. simpl.
    rewrite Nat.add_0_r in Hfail.
    destruct Hfail as [-> | (page & -> & Hcontent)]; simpl;
      [reflexivity | now rewrite Hcontent].
  - destruct remaining as [|remaining]; [lia|]. simpl.
    destruct (Hbefore O ltac:(lia)) as (page & items & Hpage & Hitems).
    rewrite Nat.add_0_r in Hpage. rewrite Hpage; simpl. rewrite Hitems; simpl.
    apply IH.
    + lia.
    + intros j Hj. rewrite Nat.add_succ_comm. apply Hbefore. lia.
    + now rewrite Nat.add_succ_comm.
Qed.

(** When a page of the document cannot be fetched, or its text content
    cannot be read, the extraction throws the error of the first such
    page: the text of the pages before it is dropped and the pages after
    it are not looked at. *)
Theorem processPDF_fails_with_the_first_bad_page
    (h : Host) (data : list N) (getDocument : list N -> result PDFDocument)
    (pdf : PDFDocument) (k : nat) (err : Error) :
  pdfLib h = Some getDocument ->
  getDocument data = inr pdf ->
  (k < numPages pdf)%nat ->
  (forall j, (j < k)%nat ->
     exists page items, getPage pdf (S j) = inr page
                        /\ getTextContent page = inr items) ->
  (getPage pdf (S k) = inl err
   \/ exists page, getPage pdf (S k) = inr page
                   /\ getTextContent page = inl err) ->
  processPDF h data = inl err.
Proof.
  intros Hlib Hdoc Hk Hbefore Hfail.
  unfold processPDF. rewrite Hlib, Hdoc; simpl.
  now apply (pagesFrom_fails pdf err k 1 (numPages pdf) []).
Qed.

Lemma processPDF_fails_with_the_first_bad_page_witness :
  processPDF (Demo.host (Some (fun _ => ret Samples.brokenSecondPage)) []) []
  = inl (errorOf (lit "Invalid page request.")).
Proof.
  apply (processPDF_fails_with_the_first_bad_page
           (Demo.host (Some (fun _ => ret Samples.brokenSecondPage)) []) []
           (fun _ => ret Samples.brokenSecondPage) Samples.brokenSecondPage 1).
  - reflexivity.
  - reflexivity.
  - simpl. lia.
  - intros j Hj. assert (j = O) by lia. subst j.
    eexists. eexists. split; reflexivity.
  - left. reflexivity.
Defined.

End PdfFailure.

(** ** processEPUB: what is read, and what a failed read does *)

Section EpubReads.

Lemma concatenated_opens (h : Host) (file : HtmlFile.t)
    (files : list HtmlFile.t) :
  exists rest, concatenated h (file :: files) = [LF; LF] ++ rest.
Proof.
  unfold concatenated. simpl.
  now exists (markdownOf h file
              ++ concat (map (fun f => LF :: LF :: markdownOf h f) files)).
Qed.

(** Whatever the archive, the extractor has one of three outcomes: it
    throws, it returns the sentinel sentence, or it returns a text that
    opens with the separator of a document; so its result is never the
    empty string. *)
Theorem processEPUB_result_is_never_empty
    (h : Host) (data : list N) (targetFormat : jsstring) :
  ((exists err, processEPUB h data targetFormat = inl err)
   \/ processEPUB h data targetFormat
      = inr (lit "Error: No text content extracted from EPUB.")
   \/ (exists rest,
         processEPUB h data targetFormat = inr ([LF; LF] ++ rest)))
  /\ processEPUB h data targetFormat <> inr [].
Proof.
  unfold processEPUB.
  destruct (loadAsync h data) as [err|files]; simpl;
    [split; [left; now exists err | discriminate]|].
  destruct (readMatched files) as [err|read]; simpl;
    [split; [left; now exists err | discriminate]|].
  rewrite combine_concatenated.
  destruct (sortedFiles h read) as [|file ordered].
  - split; [right; left; reflexivity | discriminate].
  - destruct (concatenated_opens h file ordered) as [rest ->].
    split; [right; right; now exists rest | discriminate].
Qed.

Lemma readMatched_agree (files files' : ZipFiles) :
  Forall2 (fun entry entry' =>
             fst entry = fst entry'
             /\ (isContentDocument (fst entry) = true ->
                 snd entry = snd entry')) files files' ->
  readMatched files = readMatched files'.
Proof.
  induction 1 as [|[f r] [f' r'] files files' [Hf Hr] Hrest IH];
    [reflexivity|].
  simpl in Hf, Hr. subst f'. simpl. rewrite IH.
  destruct (isContentDocument f); [|reflexivity].
  now rewrite Hr.
Qed.

(** Only the entries that pass the filter are read: two archives with the
    same paths in the same order, and the same content under the paths
    that pass the filter, give the same result, whatever the other
    entries hold and whether they can be read at all. *)
Theorem processEPUB_reads_matched_entries_only
    (h : Host) (data : list N) (targetFormat : jsstring)
    (files files' : ZipFiles) :
  Forall2 (fun entry entry' =>
             fst entry = fst entry'
             /\ (isContentDocument (fst entry) = true ->
                 snd entry = snd entry')) files files' ->
  processEPUB (withArchive h files) data targetFormat
  = processEPUB (withArchive h files') data targetFormat.
Proof.
  intros Hsame. unfold processEPUB. simpl.
  now rewrite (readMatched_agree files files' Hsame).
Qed.

Lemma processEPUB_reads_matched_entries_only_witness :
  processEPUB (withArchive (Demo.host None []) Samples.unreadableStyle) []
              (lit "Markdown")
  = processEPUB (withArchive (Demo.host None []) Samples.readableStyle) []
                (lit "Markdown").
Proof.
  apply (processEPUB_reads_matched_entries_only
           (Demo.host None []) [] (lit "Markdown")
           Samples.unreadableStyle Samples.readableStyle).
  repeat constructor; simpl; discriminate.
Defined.

Lemma readMatched_fails (files : ZipFiles) (filename : jsstring) (err : Error) :
  In (filename, inl err) files -> isContentDocument filename = true ->
  exists err', readMatched files = inl err'.
Proof.
  induction files as [|[f r] files IH]; intros Hin Hmatch; [contradiction|].
  simpl. destruct Hin as [E|Hin].
  - injection E as -> ->. rewrite Hmatch. simpl. now exists err.
  - destruct (IH Hin Hmatch) as [err' Herr'].
    destruct (isContentDocument f); [|now exists err'].
    destruct r as [e|str]; simpl; [now exists e|].
    rewrite Herr'. simpl. now exists err'.
Qed.

(** When the read of one entry that passes the filter fails, the whole
    extraction throws: no text is returned for the documents that could
    be read, and the sentinel is not returned either. *)
Theorem processEPUB_fails_when_a_matched_read_fails
    (h : Host) (data : list N) (targetFormat : jsstring) (files : ZipFiles)
    (filename : jsstring) (err : Error) :
  loadAsync h data = inr files ->
  In (filename, inl err) files ->
  isContentDocument filename = true ->
  exists err', processEPUB h data targetFormat = inl err'.
Proof.
  intros Hload Hin Hmatch.
  destruct (readMatched_fails files filename err Hin Hmatch) as [err' Herr'].
  exists err'. unfold processEPUB. rewrite Hload; simpl. now rewrite Herr'.
Qed.

Lemma processEPUB_fails_when_a_matched_read_fails_witness :
  exists err',
    processEPUB (Demo.host None Samples.unreadableChapter) [] (lit "HTML")
    = inl err'.
Proof.
  apply (processEPUB_fails_when_a_matched_read_fails
           (Demo.host None Samples.unreadableChapter) [] (lit "HTML")
           Samples.unreadableChapter (lit "chapter.xhtml")
           (errorOf (lit "Corrupted zip: missing bytes."))).
  - reflexivity.
  - now left.
  - reflexivity.
Defined.

End EpubReads.

(** ** processEPUB: the completion order of the reads *)

Section SortedUnique.

Variable A : Type.
Variable le : A -> A -> Prop.


End SortedUnique.

Section CompletionOrder.

Local Open Scope Z_scope.








End CompletionOrder.

(** ** formatOutput: blank text, and reading the JSON preview back *)

Section BlankText.

Import JSFacts.

Lemma split_keeps (P : char16 -> bool) (sep : char16) (s : jsstring) :
  forallb P s = true -> Forall (fun l => forallb P l = true) (split sep s).
Proof.
  induction s as [|c s IH]; intros H; simpl.
  - repeat constructor.
  - simpl in H. apply andb_prop in H. destruct H as [Hc Hs].
    specialize (IH Hs).
    destruct (N.eqb c sep); [now constructor|].
    destruct (split sep s) as [|piece pieces]; [repeat constructor; simpl; now rewrite Hc|].
    inversion IH as [|? ? Hpiece Hpieces]; subst.
    constructor; [simpl; now rewrite Hc | exact Hpieces].
Qed.

(** A text made of white space only, the empty text and a text of blank
    lines included, gives the container with nothing between its two
    newlines under the HTML tag: no paragraph is made for it. *)
Theorem html_of_blank_text_is_the_empty_container (now : Z) (text : jsstring) :
  forallb isWhiteSpace text = true ->
  formatOutput now text (lit "HTML")
  = tpl "<div class='converted-content'>" ++ [LF; LF] ++ lit "</div>".
Proof.
  intros Hblank. unfold formatOutput.
  change (JS.eqb (lit "HTML") (lit "JSON")) with false.
  change (JS.eqb (lit "HTML") (lit "PDF")) with false.
  change (JS.eqb (lit "HTML") (lit "EPUB")) with false.
  change (JS.eqb (lit "HTML") (lit "HTML")) with true.
  cbv iota; simpl orb; cbv iota.
  rewrite join_empty, paragraphs_filter.
  assert (Hnone : filter nonBlank (split LF text) = []).
  { pose proof (split_keeps isWhiteSpace LF text Hblank) as Hlines.
    induction Hlines as [|l lines Hl Hlines IH]; [reflexivity|].
    simpl. unfold nonBlank at 1. now rewrite Hl. }
  rewrite Hnone. reflexivity.
Qed.

Lemma html_of_blank_text_is_the_empty_container_witness :
  formatOutput 0 (lit "  " ++ [LF; 9%N; LF]) (lit "HTML")
  = tpl "<div class='converted-content'>" ++ [LF; LF] ++ lit "</div>".
Proof.
  apply (html_of_blank_text_is_the_empty_container 0 (lit "  " ++ [LF; 9%N; LF])).
  reflexivity.
Defined.

End BlankText.

Section JsonRoundTrip.

Import JSFacts.

Local Open Scope N_scope.

Lemma hexValue_hexDigit (d : N) : d < 16 -> hexValue (hexDigit d) = Some d.
Proof.
  intros Hd. unfold hexDigit, hexValue, isDigit.
  destruct (N.ltb_spec d 10).
  - destruct (N.leb_spec 48 (48 + d)); [|lia].
    destruct (N.leb_spec (48 + d) 57); [|lia].
    cbn [andb]. f_equal. lia.
  - destruct (N.leb_spec 48 (87 + d)); [|lia].
    destruct (N.leb_spec (87 + d) 57); [lia|].
    cbn [andb].
    destruct (N.leb_spec 97 (87 + d)); [|lia].
    destruct (N.leb_spec (87 + d) 102); [|lia].
    cbn [andb]. f_equal. lia.
Qed.

Lemma hex4_value (c : N) :
  c < 65536 ->
  (((c / 4096) mod 16 * 16 + (c / 256) mod 16) * 16 + (c / 16) mod 16) * 16
  + c mod 16 = c.
Proof.
  intros Hc. zify. Z.to_euclidean_division_equations. lia.
Qed.

Lemma readString_raw (c : char16) (tail : jsstring) :
  N.eqb c dquote = false -> N.eqb c backslash = false -> (c <? 32) = false ->
  readString (c :: tail)
  = match readString tail with
    | Some (t, rest) => Some (c :: t, rest)
    | None => None
    end.
Proof. intros H1 H2 H3. cbn [readString]. now rewrite H1, H2, H3. Qed.

Lemma readString_escape (e d : char16) (tail : jsstring) :
  N.eqb e 117 = false -> simpleEscape e = Some d ->
  readString (backslash :: e :: tail)
  = match readString tail with
    | Some (t, rest) => Some (d :: t, rest)
    | None => None
    end.
Proof.
  intros H1 H2. cbn [readString].
  change (N.eqb backslash dquote) with false.
  change (N.eqb backslash backslash) with true. cbv iota.
  now rewrite H1, H2.
Qed.

Lemma readString_hex (c : char16) (tail : jsstring) :
  c < 65536 ->
  readString ([backslash; 117] ++ hex4 c ++ tail)
  = match readString tail with
    | Some (t, rest) => Some (c :: t, rest)
    | None => None
    end.
Proof.
  intros Hc. unfold hex4. cbn [app readString].
  change (N.eqb backslash dquote) with false.
  change (N.eqb backslash backslash) with true.
  change (N.eqb 117 117) with true. cbv iota.
  rewrite !hexValue_hexDigit by (apply N.mod_lt; discriminate).
  rewrite (hex4_value c Hc). reflexivity.
Qed.

(** Reading back the escape of one unit gives the unit. *)
Lemma readString_unit (c : char16) (tail : jsstring) :
  c < 65536 ->
  readString (quoteUnit c ++ tail)
  = match readString tail with
    | Some (t, rest) => Some (c :: t, rest)
    | None => None
    end.
Proof.
  intros Hc. unfold quoteUnit.
  destruct (N.eqb_spec c 8) as [->|H8];
    [now apply readString_escape|].
  destruct (N.eqb_spec c 9) as [->|H9];
    [now apply readString_escape|].
  destruct (N.eqb_spec c 10) as [->|H10];
    [now apply readString_escape|].
  destruct (N.eqb_spec c 12) as [->|H12];
    [now apply readString_escape|].
  destruct (N.eqb_spec c 13) as [->|H13];
    [now apply readString_escape|].
  destruct (N.eqb_spec c dquote) as [->|Hq];
    [now apply readString_escape|].
  destruct (N.eqb_spec c backslash) as [->|Hb];
    [now apply readString_escape|].
  destruct ((c <? 32) || isLead c || isTrail c) eqn:E.
  - now apply readString_hex.
  - apply orb_false_iff in E. destruct E as [E _].
    apply orb_false_iff in E. destruct E as [E _].
    apply readString_raw; [now apply N.eqb_neq | now apply N.eqb_neq | exact E].
Qed.

Lemma surrogate_raw (c : char16) :
  isLead c = true \/ isTrail c = true ->
  N.eqb c dquote = false /\ N.eqb c backslash = false /\ (c <? 32) = false.
Proof.
  unfold isLead, isTrail, dquote, backslash.
  intros [H|H]; apply andb_prop in H; destruct H as [H1 H2];
    apply N.leb_le in H1, H2;
    (repeat split; [apply N.eqb_neq | apply N.eqb_neq | apply N.ltb_ge]; lia).
Qed.

Lemma quoteBody_two (c d : char16) (s : jsstring) :
  quoteBody (c :: d :: s)
  = if isLead c && isTrail d then c :: d :: quoteBody s
    else quoteUnit c ++ quoteBody (d :: s).
Proof. reflexivity. Qed.

(** Reading back a quoted string gives the string and what follows the
    closing quote. *)
Lemma readString_quoteBody (n : nat) :
  forall (s tail : jsstring),
    (length s <= n)%nat -> wellFormed s ->
    readString (quoteBody s ++ dquote :: tail) = Some (s, tail).
Proof.
  induction n as [|n IH]; intros s tail Hlen Hwf.
  - destruct s; [reflexivity | simpl in Hlen; lia].
  - destruct s as [|c [|d s]].
    + reflexivity.
    + inversion Hwf as [|? ? Hc _]; subst.
      change (quoteBody [c]) with (quoteUnit c).
      now rewrite readString_unit.
    + inversion Hwf as [|? ? Hc Hwf']; subst.
      rewrite quoteBody_two.
      destruct (isLead c && isTrail d) eqn:E.
      * apply andb_prop in E. destruct E as [El Et].
        destruct (surrogate_raw c (or_introl El)) as (C1 & C2 & C3).
        destruct (surrogate_raw d (or_intror Et)) as (D1 & D2 & D3).
        inversion Hwf' as [|? ? Hd Hwf'']; subst.
        cbn [app]. rewrite (readString_raw c _ C1 C2 C3).
        rewrite (readString_raw d _ D1 D2 D3).
        rewrite IH; [reflexivity | simpl in Hlen; lia | exact Hwf''].
      * rewrite <- app_assoc, readString_unit by exact Hc.
        rewrite IH; [reflexivity | simpl in Hlen |- *; lia | exact Hwf'].
Qed.

Lemma property_shape (k v tail : jsstring) :
  property (k, v) ++ tail
  = 32 :: 32 :: dquote :: quoteBody k
    ++ dquote :: 58 :: 32 :: dquote :: quoteBody v ++ dquote :: tail.
Proof.
  unfold property, quoteJSON. cbn [fst snd].
  change (lit "  ") with [32; 32]. change (lit ": ") with [58; 32].
  cbn [app]. repeat (rewrite <- app_assoc; cbn [app]). reflexivity.
Qed.

(** One member read, after a newline. *)
Lemma readMembers_step (fuel : nat) (k v tail : jsstring) :
  wellFormed k -> wellFormed v ->
  readMembers (S fuel) (LF :: property (k, v) ++ tail)
  = match expect 44 tail, expect 125 tail with
    | Some s4, _ => option_map (cons (k, v)) (readMembers fuel s4)
    | None, Some s4 =>
        match skipSpace s4 with
        | [] => Some [(k, v)]
        | _ :: _ => None
        end
    | None, None => None
    end.
Proof.
  intros Hk Hv. rewrite property_shape. cbn [readMembers].
  unfold readQuoted at 1.
  change (expect dquote (LF :: 32 :: 32 :: dquote :: ?x)) with (Some x).
  cbv iota.
  rewrite (readString_quoteBody (length k) k _ (Nat.le_refl _) Hk).
  change (expect 58 (58 :: ?x)) with (Some x). cbv iota.
  unfold readQuoted at 1.
  change (expect dquote (32 :: dquote :: ?x)) with (Some x). cbv iota.
  rewrite (readString_quoteBody (length v) v _ (Nat.le_refl _) Hv).
  reflexivity.
Qed.

Lemma readMembers_all (props : list (jsstring * jsstring)) :
  forall fuel p,
    (length props < fuel)%nat ->
    Forall (fun kv => wellFormed (fst kv) /\ wellFormed (snd kv)) (p :: props) ->
    readMembers fuel
      (LF :: join (lit "," ++ [LF]) (map property (p :: props))
          ++ [LF] ++ lit "}")
    = Some (p :: props).
Proof.
  induction props as [|q props IH]; intros fuel [k v] Hfuel Hwf;
    (destruct fuel as [|fuel]; [simpl in Hfuel; lia|]);
    inversion Hwf as [|? ? [Hk Hv] Hwf']; subst; cbn [fst snd] in Hk, Hv.
  - cbn [map join]. rewrite readMembers_step by assumption. reflexivity.
  - change (join (lit "," ++ [LF]) (map property ((k, v) :: q :: props)))
      with (property (k, v) ++ (lit "," ++ [LF])
            ++ join (lit "," ++ [LF]) (map property (q :: props))).
    rewrite <- !app_assoc.
    rewrite readMembers_step by assumption.
    change (expect 44 (lit "," ++ ?x)) with (Some x). cbv iota.
    cbn [app]. rewrite IH; [reflexivity | simpl in Hfuel; lia | exact Hwf'].
Qed.

Lemma property_not_empty (kv : jsstring * jsstring) :
  (1 <= length (property kv))%nat.
Proof. unfold property. rewrite length_app. simpl. lia. Qed.

Lemma join_length (sep : jsstring) (parts : list jsstring) :
  Forall (fun part => (1 <= length part)%nat) parts ->
  (length parts <= length (join sep parts))%nat.
Proof.
  induction 1 as [|part parts Hp Hparts IH]; [apply Nat.le_refl|].
  destruct parts as [|q parts]; [simpl; lia|].
  change (join sep (part :: q :: parts))
    with (part ++ sep ++ join sep (q :: parts)).
  rewrite !length_app.
  change (length (part :: q :: parts)) with (S (length (q :: parts))).
  unfold jsstring, char16 in *. lia.
Qed.

(** What [JSON.stringify] prints for an object of strings reads back as
    the same properties in the same order. *)
Lemma parseObject_stringify2 (props : list (jsstring * jsstring)) :
  Forall (fun kv => wellFormed (fst kv) /\ wellFormed (snd kv)) props ->
  parseObject (stringify2 props) = Some props.
Proof.
  intros Hwf. destruct props as [|[k v] props]; [reflexivity|].
  unfold stringify2, parseObject.
  change (expect 123 (lit "{" ++ ?x)) with (Some x). cbv iota.
  change ([LF] ++ ?x) with (LF :: x).
  set (members := join (lit "," ++ [LF]) (map property ((k, v) :: props))).
  assert (Hhead : exists rest,
            members ++ [LF] ++ lit "}" = property (k, v) ++ rest).
  { unfold members. destruct props as [|q props].
    - now exists ([LF] ++ lit "}").
    - exists ((lit "," ++ [LF])
              ++ join (lit "," ++ [LF]) (map property (q :: props))
              ++ [LF] ++ lit "}").
      change (join (lit "," ++ [LF]) (map property ((k, v) :: q :: props)))
        with (property (k, v) ++ (lit "," ++ [LF])
              ++ join (lit "," ++ [LF]) (map property (q :: props))).
      now rewrite <- !app_assoc. }
  destruct Hhead as [rest Hhead].
  assert (Hnone : expect 125 (LF :: members ++ [LF] ++ lit "}") = None)
    by (now rewrite Hhead, property_shape).
  rewrite Hnone.
  refine (readMembers_all props _ (k, v) _ Hwf).
  assert (Hlen : (length (map property ((k, v) :: props))
                  <= length members)%nat).
  { apply join_length, Forall_map, Forall_forall. intros kv _.
    apply property_not_empty. }
  rewrite length_map in Hlen.
  change (lit "{" ++ LF :: members ++ [LF] ++ lit "}")
    with (123 :: LF :: members ++ [LF] ++ lit "}").
  cbn [length] in Hlen |- *. rewrite length_app.
  unfold jsstring, char16 in *. lia.
Qed.

Lemma plain_wellFormed (s : jsstring) :
  forallb plainUnit s = true -> wellFormed s.
Proof.
  unfold wellFormed. rewrite forallb_forall, Forall_forall.
  intros H c Hc. specialize (H c Hc). unfold plainUnit in H.
  repeat (apply andb_prop in H; destruct H as [H ?]).
  match goal with X : (c <? 55296) = true |- _ => apply N.ltb_lt in X end.
  lia.
Qed.

(** The JSON preview reads back, as [JSON.parse] reads it, into an
    object with exactly the two properties generatedAt and content, in
    this order, whose content is the text that was formatted, whatever
    quotes, backslashes, control characters or surrogates it holds. *)
Theorem json_preview_reads_back (now : Z) (text : jsstring) :
  wellFormed text ->
  parseObject (formatOutput now text (lit "JSON"))
  = Some [(lit "generatedAt", toISOString now); (lit "content", text)].
Proof.
  intros Hwf. unfold formatOutput.
  change (JS.eqb (lit "JSON") (lit "JSON")) with true. cbv iota.
  apply parseObject_stringify2.
  apply Forall_cons; [split; cbn [fst snd]|].
  - apply plain_wellFormed. reflexivity.
  - apply plain_wellFormed, toISOString_plain.
  - apply Forall_cons; [split; cbn [fst snd] | constructor].
    + apply plain_wellFormed. reflexivity.
    + exact Hwf.
Qed.

(** A text with a quote, a backslash, a newline and a lone surrogate. *)
Lemma json_preview_reads_back_witness :
  parseObject
    (formatOutput 0 (lit "a" ++ [dquote; backslash; LF; 55357]) (lit "JSON"))
  = Some [(lit "generatedAt", toISOString 0);
          (lit "content", lit "a" ++ [dquote; backslash; LF; 55357])].
Proof.
  apply (json_preview_reads_back 0 (lit "a" ++ [dquote; backslash; LF; 55357])).
  unfold wellFormed. repeat constructor.
Defined.

End JsonRoundTrip.

(** ** createEPUB: the documents of the archive *)

Section EpubDocuments.

Import JSFacts.

Lemma includes_occursIn (p s : jsstring) :
  includes p s = true -> occursIn p s.
Proof.
  induction s as [|c s IH]; simpl; intros H.
  - rewrite orb_false_r in H.
    destruct (startsWith_split _ _ H) as [rest ->]. now exists [], rest.
  - apply orb_prop in H. destruct H as [H|H].
    + destruct (startsWith_split _ _ H) as [rest E]. exists [], rest.
      exact E.
    + apply (occursIn_skip p [c] s). now apply IH.
Qed.

(** Whatever the title, the content and the clock, the archive holds
    exactly five files, in the order mimetype, container.xml,
    content.xhtml, content.opf, toc.ncx, under paths that are all
    different, and every file a document refers to is one of them: the
    container names the package document, the package document lists the
    navigation file and the content document and puts the content
    document in the spine, and the navigation point leads to the content
    document. *)
Theorem epub_references_resolve
    (tOpf tNcx : Z) (title content : jsstring) :
  let epub := createEPUB tOpf tNcx title content in
  map path (filter (fun e => negb (isFolder e)) epub)
  = [lit "mimetype"; lit "META-INF/container.xml"; lit "OEBPS/content.xhtml";
     lit "OEBPS/content.opf"; lit "OEBPS/toc.ncx"]
  /\ NoDup (map path epub)
  /\ (exists container,
        entryAt (lit "META-INF/container.xml") epub = Some container
        /\ occursIn (tpl "full-path='OEBPS/content.opf'") container)
  /\ (exists opf,
        entryAt (lit "OEBPS/content.opf") epub = Some opf
        /\ occursIn (tpl "<item id='ncx' href='toc.ncx'") opf
        /\ occursIn (tpl "<item id='content' href='content.xhtml'") opf
        /\ occursIn (tpl "<itemref idref='content'/>") opf)
  /\ (exists ncx,
        entryAt (lit "OEBPS/toc.ncx") epub = Some ncx
        /\ occursIn (tpl "<content src='content.xhtml'/>") ncx).
Proof.
  destruct (epub_documents tOpf tNcx title content) as (_ & Ho & Hn).
  intros epub. split; [vm_compute; reflexivity|]. split.
  { assert (Hpaths : map path epub
                     = [lit "mimetype"; lit "META-INF/";
                        lit "META-INF/container.xml"; lit "OEBPS/";
                        lit "OEBPS/content.xhtml"; lit "OEBPS/content.opf";
                        lit "OEBPS/toc.ncx"])
      by (vm_compute; reflexivity).
    rewrite Hpaths.
    repeat (constructor; [simpl; intuition discriminate|]). constructor. }
  split.
  { exists containerXml. split; [vm_compute; reflexivity|].
    apply includes_occursIn. reflexivity. }
  split.
  { exists (contentOpf tOpf title). split; [exact Ho|].
    unfold contentOpf.
    repeat split; do 4 apply occursIn_skip; apply includes_occursIn;
      reflexivity. }
  exists (tocNcx tNcx title). split; [exact Hn|].
  unfold tocNcx. do 4 apply occursIn_skip. apply includes_occursIn.
  reflexivity.
Qed.

Lemma lit_injective (s t : string) : lit s = lit t -> s = t.
Proof.
  unfold lit. intros E.
  rewrite <- (string_of_list_ascii_of_string s).
  rewrite <- (string_of_list_ascii_of_string t). f_equal.
  revert E. generalize (list_ascii_of_string s) (list_ascii_of_string t).
  intros l. induction l as [|a l IH]; intros [|b m]; simpl;
    try discriminate; [reflexivity|].
  intros E. injection E as Ea El. f_equal; [|now apply IH].
  rewrite <- (ascii_N_embedding a), <- (ascii_N_embedding b). now f_equal.
Qed.

Lemma to_int_not_nil (n : Z) :
  Z.to_int n <> Decimal.Pos Decimal.Nil
  /\ Z.to_int n <> Decimal.Neg Decimal.Nil.
Proof.
  destruct n as [|p|p]; simpl; split; try discriminate;
    intros E; injection E as E;
    exact (DecimalPos.Unsigned.to_uint_nonnil p E).
Qed.

Lemma numberToString_injective (m n : Z) :
  numberToString m = numberToString n -> m = n.
Proof.
  unfold numberToString. intros E. apply lit_injective in E.
  apply DecimalZ.to_int_inj.
  assert (H : NilZero.int_of_string (NilZero.string_of_int (Z.to_int m))
              = NilZero.int_of_string (NilZero.string_of_int (Z.to_int n)))
    by now rewrite E.
  destruct (to_int_not_nil m) as [Hm1 Hm2].
  destruct (to_int_not_nil n) as [Hn1 Hn2].
  rewrite (NilZero.isi _ Hm1 Hm2), (NilZero.isi _ Hn1 Hn2) in H.
  injection H as H. exact H.
Qed.

(** The identifier of the package document and the uid of the navigation
    file are each the decimal figure of a reading of the clock, taken
    one after the other: the two agree exactly when the clock shows the
    same millisecond at both readings. *)
Theorem epub_identifiers_are_two_clock_readings
    (tOpf tNcx : Z) (title content : jsstring) :
  let epub := createEPUB tOpf tNcx title content in
  exists opf ncx : jsstring,
    entryAt (lit "OEBPS/content.opf") epub = Some opf
    /\ entryAt (lit "OEBPS/toc.ncx") epub = Some ncx
    /\ occursIn (tpl "<dc:identifier id='BookId'>urn:uuid:"
                 ++ numberToString tOpf ++ lit "</dc:identifier>") opf
    /\ occursIn (tpl "<meta name='dtb:uid' content='urn:uuid:"
                 ++ numberToString tNcx ++ tpl "'/>") ncx
    /\ (numberToString tOpf = numberToString tNcx <-> tOpf = tNcx).
Proof.
  destruct (epub_documents tOpf tNcx title content) as (_ & Ho & Hn).
  intros epub. exists (contentOpf tOpf title), (tocNcx tNcx title).
  split; [exact Ho|]. split; [exact Hn|].
  unfold contentOpf, tocNcx.
  split; [do 2 apply occursIn_skip; now apply occursIn_frame|].
  split; [now apply occursIn_frame|].
  split; [apply numberToString_injective | now intros ->].
Qed.

Lemma scanEscaped_token (token r : jsstring) :
  In token [lit "&amp;"; lit "&lt;"; lit "&gt;"; lit "<br/>"] ->
  scanEscaped 0 (token ++ r) = scanEscaped 0 r.
Proof.
  intros H. simpl in H.
  repeat (destruct H as [<-|H]; [reflexivity|]). contradiction.
Qed.

(** The escaped body is well-formed character data whatever the content:
    an ampersand only opens one of the entities [&amp;], [&lt;] and
    [&gt;], a less-than sign only opens a line break element, and outside
    of these there is no greater-than sign and no newline. *)
Theorem escaped_body_is_well_formed (content : jsstring) :
  wellEscaped (escapeXml content) = true.
Proof.
  unfold wellEscaped.
  induction content as [|c content IH]; [reflexivity|].
  change (c :: content) with ([c] ++ content).
  rewrite escapeXml_app, escapeXml_unit. unfold escapeUnit.
  destruct (N.eqb_spec c ampersand) as [->|Ha];
    [now rewrite scanEscaped_token by (simpl; tauto)|].
  destruct (N.eqb_spec c less) as [->|Hl];
    [now rewrite scanEscaped_token by (simpl; tauto)|].
  destruct (N.eqb_spec c greater) as [->|Hg];
    [now rewrite scanEscaped_token by (simpl; tauto)|].
  destruct (N.eqb_spec c LF) as [->|Hn];
    [now rewrite scanEscaped_token by (simpl; tauto)|].
  cbn [app scanEscaped].
  rewrite (proj2 (N.eqb_neq c ampersand) Ha), (proj2 (N.eqb_neq c less) Hl),
    (proj2 (N.eqb_neq c greater) Hg), (proj2 (N.eqb_neq c LF) Hn).
  exact IH.
Qed.

End EpubDocuments.

(** ** generateFile: the number of pages of the PDF *)

Section PageCount.

Local Open Scope Q_scope.

Variable bottom : Q.
Hypothesis page_holds_a_line : 20 <= bottom.

Lemma next_capacity_spec (j : nat) :
  (j < nextPageCapacity bottom)%nat
  <-> 20 + 6 * inject_Z (Z.of_nat j) <= bottom.
Proof.
  assert (Hj : 0 <= inject_Z (Z.of_nat j))
    by (change 0 with (inject_Z 0); rewrite <- Zle_Qle; lia).
  unfold nextPageCapacity.
  assert (Hf : (0 <= Qfloor ((bottom - 20) * (1 # 6)))%Z)
    by (apply floor_ge; change (inject_Z 0) with 0; lra).
  transitivity (Z.of_nat j <= Qfloor ((bottom - 20) * (1 # 6)))%Z; [lia|].
  rewrite floor_ge. split; intros H; lra.
Qed.

Lemma next_capacity_positive : (1 <= nextPageCapacity bottom)%nat.
Proof.
  apply (proj2 (next_capacity_spec 0)). change (inject_Z (Z.of_nat 0)) with 0.
  lra.
Qed.

Lemma layout_next_pages (lines : list jsstring) :
  forall doc (j : nat) cursorY,
    (1 <= j <= nextPageCapacity bottom)%nat ->
    cursorY == 20 + 6 * inject_Z (Z.of_nat j) ->
    pages (fst (layout bottom (doc, cursorY) lines))
    = (pages doc + (j + length lines - 1) / nextPageCapacity bottom)%nat.
Proof.
  pose proof next_capacity_positive as Hpos.
  induction lines as [|line rest IH]; intros doc j cursorY Hj Hc.
  - simpl. rewrite Nat.div_small; lia.
  - rewrite layout_step. pose proof (next_capacity_spec j) as Hcap.
    destruct (gtb cursorY bottom) eqn:Hg.
    + apply gtb_true in Hg.
      assert (Hfull : j = nextPageCapacity bottom).
      { assert (~ (j < nextPageCapacity bottom)%nat) by (rewrite Hcap; lra).
        lia. }
      rewrite (IH _ 1%nat); [|lia | change (inject_Z (Z.of_nat 1)) with 1; ring].
      simpl pages. simpl length. subst j.
      replace (nextPageCapacity bottom + S (length rest) - 1)%nat
        with (1 * nextPageCapacity bottom + length rest)%nat by lia.
      rewrite Nat.div_add_l by lia.
      replace (1 + length rest - 1)%nat with (length rest) by lia. lia.
    + apply gtb_false in Hg.
      assert (Hroom : (j < nextPageCapacity bottom)%nat)
        by (rewrite Hcap; lra).
      rewrite (IH _ (S j)).
      * simpl pages. simpl length.
        replace (S j + length rest - 1)%nat
          with (j + S (length rest) - 1)%nat by lia.
        reflexivity.
      * lia.
      * rewrite Nat2Z.inj_succ, <- Z.add_1_r, inject_Z_plus, Hc.
        change (inject_Z 1) with 1. ring.
Qed.

Lemma layout_first_pages (lines : list jsstring) :
  forall doc (j : nat) cursorY,
    pages doc = 1%nat ->
    (j <= firstPageCapacity bottom)%nat ->
    cursorY == 30 + 6 * inject_Z (Z.of_nat j) ->
    pages (fst (layout bottom (doc, cursorY) lines))
    = if (j + length lines <=? firstPageCapacity bottom)%nat then 1%nat
      else (2 + (j + length lines - firstPageCapacity bottom - 1)
                / nextPageCapacity bottom)%nat.
Proof.
  pose proof next_capacity_positive as Hpos.
  induction lines as [|line rest IH]; intros doc j cursorY Hp Hj Hc.
  - simpl. rewrite Nat.add_0_r.
    destruct (Nat.leb_spec j (firstPageCapacity bottom)); [exact Hp | lia].
  - rewrite layout_step. pose proof (capacity_spec bottom j) as Hcap.
    destruct (gtb cursorY bottom) eqn:Hg.
    + apply gtb_true in Hg.
      assert (Hfull : j = firstPageCapacity bottom).
      { assert (~ (j < firstPageCapacity bottom)%nat) by (rewrite Hcap; lra).
        lia. }
      rewrite (layout_next_pages rest _ 1%nat);
        [|lia | change (inject_Z (Z.of_nat 1)) with 1; ring].
      simpl pages. rewrite Hp. simpl length. subst j.
      destruct (Nat.leb_spec (firstPageCapacity bottom + S (length rest))
                  (firstPageCapacity bottom)); [lia|].
      replace (1 + length rest - 1)%nat with (length rest) by lia.
      replace (firstPageCapacity bottom + S (length rest)
               - firstPageCapacity bottom - 1)%nat
        with (length rest) by lia.
      reflexivity.
    + apply gtb_false in Hg.
      assert (Hroom : (j < firstPageCapacity bottom)%nat)
        by (rewrite Hcap; lra).
      rewrite (IH _ (S j)).
      * simpl length.
        replace (S j + length rest)%nat with (j + S (length rest))%nat by lia.
        reflexivity.
      * exact Hp.
      * lia.
      * rewrite Nat2Z.inj_succ, <- Z.add_1_r, inject_Z_plus, Hc.
        change (inject_Z 1) with 1. ring.
Qed.

End PageCount.

Section PageCountOfFile.

Local Open Scope Q_scope.

(** The number of pages follows from the number of wrapped lines alone:
    one page while the lines fit under the title, at 30 and every 6 units
    down to the bottom, and beyond that one more page for every page-full
    of lines laid from 20 down; a text that wraps to no line at all gives
    the single page with the title. *)
Theorem pdf_page_count (h : Host) (safeTitle content : jsstring) :
  20 <= pageHeight h - 15 ->
  pages (pdfDocument h safeTitle content)
  = pageCount (pageHeight h - 15)
      (length (splitTextToSize h 11 content (pageWidth h - 15 * 2))).
Proof.
  intros Hfit. unfold pageCount.
  apply (layout_first_pages (pageHeight h - 15) Hfit _
           (setFontSize 11 (text safeTitle margin 20 (setFontSize 16 newPDF)))
           0%nat 30).
  - reflexivity.
  - lia.
  - reflexivity.
Qed.

(** Fifty lines on the default page: the 43 of the first page and seven
    more on a second. *)
Lemma pdf_page_count_witness :
  pages (pdfDocument (Demo.host None []) (lit "book") Demo.fiftyLines) = 2%nat.
Proof.
  apply (pdf_page_count (Demo.host None []) (lit "book") Demo.fiftyLines).
  unfold Qle. simpl. lia.
Defined.

End PageCountOfFile.

(** ** The component: loading a file, progress, conversion, download *)

Section Component.

Import JSFacts.

Lemma split_single (sep : char16) (s : jsstring) :
  ~ In sep s -> split sep s = [s].
Proof.
  induction s as [|c s IH]; intros Hs; [reflexivity|]. simpl.
  destruct (N.eqb_spec c sep) as [->|_]; [exfalso; apply Hs; now left|].
  rewrite IH; [reflexivity | intros H; apply Hs; now right].
Qed.

Lemma split_first (sep : char16) (a b : jsstring) :
  ~ In sep a -> split sep (a ++ sep :: b) = a :: split sep b.
Proof.
  induction a as [|c a IH]; intros Ha; simpl.
  - now rewrite N.eqb_refl.
  - destruct (N.eqb_spec c sep) as [->|_]; [exfalso; apply Ha; now left|].
    rewrite IH; [reflexivity | intros H; apply Ha; now right].
Qed.

(** Of a data URL, a header and a payload with a comma between them and
    no other comma, the loaded file keeps the payload alone as its
    base64 text, with the name and the type of the file; the preview of
    the file before it is cleared and the progress is back at 0. *)
Theorem onload_keeps_the_payload
    (fileName fileType header payload : jsstring) (s : App.State) :
  ~ In App.comma header -> ~ In App.comma payload ->
  let s' := App.onload fileName fileType
              (header ++ [App.comma] ++ payload) s in
  App.uploadedFile s'
  = Some {| FileData.base64 := payload; FileData.type := fileType;
            FileData.name := fileName |}
  /\ App.convertedContent s' = []
  /\ App.progress s' = 0%Z
  /\ App.hasResult s' = false.
Proof.
  intros Hh Hp. unfold App.onload. cbn [app].
  rewrite (split_first App.comma header payload Hh).
  rewrite (split_single App.comma payload Hp).
  repeat split.
Qed.

Lemma onload_keeps_the_payload_witness :
  App.uploadedFile
    (App.onload (lit "notes.txt") (lit "text/plain")
       (lit "data:text/plain;base64" ++ [App.comma] ++ lit "aGVsbG8=")
       App.initial)
  = Some Samples.notes.
Proof.
  apply (onload_keeps_the_payload (lit "notes.txt") (lit "text/plain")
           (lit "data:text/plain;base64") (lit "aGVsbG8=") App.initial).
  - vm_compute. intuition discriminate.
  - vm_compute. intuition discriminate.
Defined.

Local Open Scope Z_scope.

Lemma advance_bounds (random : Q) (p : Z) :
  (0 <= random)%Q -> (random < 1)%Q -> 1 <= p <= 101 ->
  1 <= App.advance random p <= 101 /\ p <= App.advance random p.
Proof.
  intros H0 H1 Hp. unfold App.advance.
  destruct (Z.geb_spec p 98); [lia|].
  assert (Hlow : 0 <= Qfloor (random * 5))
    by (apply floor_ge; change (inject_Z 0) with 0%Q; lra).
  assert (Hhigh : Qfloor (random * 5) < 5).
  { apply Z.lt_nge. intros Hge. apply floor_ge in Hge.
    change (inject_Z 5) with 5%Q in Hge. lra. }
  lia.
Qed.

Lemma tick_keeps (random : Q) (s : App.State) :
  let s' := App.tick random s in
  App.isProcessing s' = App.isProcessing s
  /\ App.uploadedFile s' = App.uploadedFile s
  /\ App.convertedContent s' = App.convertedContent s
  /\ App.targetFormat s' = App.targetFormat s.
Proof.
  cbv zeta. unfold App.tick.
  destruct (negb (App.isProcessing s)), (App.hasResult s); repeat split.
Qed.

Lemma ticks_keep (draws : list Q) :
  forall s,
    let s' := fold_left (fun s random => App.tick random s) draws s in
    App.isProcessing s' = App.isProcessing s
    /\ App.uploadedFile s' = App.uploadedFile s
    /\ App.convertedContent s' = App.convertedContent s
    /\ App.targetFormat s' = App.targetFormat s.
Proof.
  induction draws as [|random draws IH]; intros s; [repeat split|].
  simpl. destruct (IH (App.tick random s)) as (H1 & H2 & H3 & H4).
  destruct (tick_keeps random s) as (K1 & K2 & K3 & K4).
  cbv zeta in *. repeat split; congruence.
Qed.

(** While a conversion is pending, however often the interval fires and
    whatever [Math.random] draws, the simulated progress never goes back
    and stays between 1 and 101: it can pass 100, which the last step
    from 97 does with a draw of four fifths or more. *)
Theorem pending_progress_stays_within_1_and_101
    (draws : list Q) (s : App.State) :
  Forall (fun random => (0 <= random)%Q /\ (random < 1)%Q) draws ->
  App.isProcessing s = true ->
  1 <= App.progress s <= 101 ->
  let s' := fold_left (fun s random => App.tick random s) draws s in
  1 <= App.progress s' <= 101 /\ App.progress s <= App.progress s'.
Proof.
  intros Hdraws. revert s.
  induction Hdraws as [|random draws [H0 H1] Hdraws IH]; intros s Hproc Hp.
  - simpl. lia.
  - simpl.
    assert (Htick : App.tick random s
                    = App.setProgress (App.advance random (App.progress s)) s)
      by (unfold App.tick; now rewrite Hproc).
    destruct (advance_bounds random (App.progress s) H0 H1 Hp) as [Hb Hm].
    specialize (IH (App.tick random s)).
    rewrite Htick in IH |- *. cbn [App.isProcessing App.progress App.setProgress] in IH.
    specialize (IH Hproc Hb). cbv zeta in IH. lia.
Qed.

(** Twenty-five large draws from the start of a conversion. *)
Lemma pending_progress_stays_within_1_and_101_witness :
  let s := App.setProgress 1 (App.setIsProcessing true Samples.loaded) in
  let s' := fold_left (fun s random => App.tick random s)
                      (repeat (9 # 10)%Q 25) s in
  (1 <= App.progress s' <= 101 /\ App.progress s <= App.progress s')
  /\ App.progress s' = 101.
Proof.
  intros s s'. split; [|reflexivity].
  apply (pending_progress_stays_within_1_and_101 (repeat (9 # 10)%Q 25) s).
  - apply Forall_forall. intros random Hin.
    apply repeat_spec in Hin. subst random. split; [unfold Qle | unfold Qlt];
      simpl; lia.
  - reflexivity.
  - simpl. lia.
Defined.

Lemma hasResult_truthy (s : App.State) :
  App.hasResult s = truthy (App.convertedContent s).
Proof. unfold App.hasResult. now destruct (App.convertedContent s). Qed.

(** A conversion started on a loaded file always ends with the
    processing flag down, the file and the format untouched.  When the
    service returns a preview, it becomes the content and the progress
    is 100; when the service throws, the content is left as it was and
    the progress is 0.  The next firing of the interval then sets the
    progress by the content alone: 100 when it is not empty, 0 when it
    is, so an empty preview ends at 0 and a failure over an older
    preview ends at 100. *)
Theorem conversion_settles_by_the_content
    (h : Host) (now : Z) (draws : list Q) (random : Q)
    (s : App.State) (file : FileData.t) :
  App.uploadedFile s = Some file ->
  let done := App.startConversion h now draws s in
  let settled := App.tick random done in
  App.isProcessing done = false
  /\ App.uploadedFile done = Some file
  /\ App.targetFormat done = App.targetFormat s
  /\ (forall preview,
        convert h now file (App.targetFormat s) = inr preview ->
        App.convertedContent done = preview /\ App.progress done = 100)
  /\ (forall err,
        convert h now file (App.targetFormat s) = inl err ->
        App.convertedContent done = App.convertedContent s
        /\ App.progress done = 0)
  /\ App.progress settled
     = (if truthy (App.convertedContent done) then 100 else 0)
  /\ App.convertedContent settled = App.convertedContent done.
Proof.
  intros Hfile done settled.
  set (pending := fold_left (fun s random => App.tick random s) draws
                    (App.setProgress 1 (App.setIsProcessing true s))).
  destruct (ticks_keep draws (App.setProgress 1 (App.setIsProcessing true s)))
    as (_ & Kf & Kc & Kt).
  fold pending in Kf, Kc, Kt. cbn in Kf, Kc, Kt.
  assert (Hdone : done
                  = App.setIsProcessing false
                      match convert h now file (App.targetFormat s) with
                      | inr result =>
                          App.setProgress 100
                            (App.setConvertedContent result pending)
                      | inl _ => App.setProgress 0 pending
                      end).
  { unfold done, App.startConversion. rewrite Hfile. fold pending.
    now rewrite Kt. }
  assert (Hp : App.isProcessing done = false) by now rewrite Hdone.
  split; [exact Hp|].
  split.
  { rewrite Hdone.
    destruct (convert h now file (App.targetFormat s)); cbn;
      now rewrite Kf. }
  split.
  { rewrite Hdone.
    destruct (convert h now file (App.targetFormat s)); cbn; exact Kt. }
  split.
  { intros preview Hc. rewrite Hdone, Hc. now split. }
  split.
  { intros err Hc. rewrite Hdone, Hc. cbn. now split. }
  unfold settled, App.tick. rewrite Hp, hasResult_truthy. cbn [negb].
  now destruct (truthy (App.convertedContent done)).
Qed.

(** The text file, converted to Markdown while the interval fires
    twice. *)
Lemma conversion_settles_by_the_content_witness :
  let done := App.startConversion (Demo.host None []) 0
                [(1 # 2)%Q; (1 # 2)%Q] Samples.loaded in
  App.isProcessing done = false
  /\ App.convertedContent done = lit "hello"
  /\ App.progress done = 100.
Proof.
  intros done.
  destruct (conversion_settles_by_the_content
              (Demo.host None []) 0 [(1 # 2)%Q; (1 # 2)%Q] (1 # 2)%Q
              Samples.loaded Samples.notes eq_refl)
    as (Hp & _ & _ & Hok & _).
  split; [exact Hp|]. apply (Hok (lit "hello")). reflexivity.
Defined.

(** The download of an EPUB carries as its title the name of the loaded
    file without its last extension, and is named after the clock and
    the extension of the format, not after the file. *)
Theorem epub_download_is_titled_by_the_file_stem
    (h : Host) (tOpf tNcx tName : Z) (s : App.State) (file : FileData.t)
    (stem ext : jsstring) :
  App.uploadedFile s = Some file ->
  App.targetFormat s = lit "EPUB" ->
  FileData.name file = stem ++ [46%N] ++ ext ->
  ext <> [] -> forallb inExtension ext = true ->
  App.downloadResult h tOpf tNcx tName s
  = (lit "nebula_output_" ++ numberToString tName ++ lit ".epub",
     {| blob := ZipBlob (createEPUB tOpf tNcx stem (App.convertedContent s));
        extension := lit "epub" |}).
Proof.
  intros Hfile Hformat Hname Hne Hext.
  unfold App.downloadResult. rewrite Hfile, Hformat, Hname.
  assert (Htruthy : truthy (stem ++ [46%N] ++ ext) = true)
    by (destruct stem; reflexivity).
  rewrite Htruthy. unfold generateFile.
  change (JS.eqb (lit "EPUB") (lit "PDF")) with false.
  change (JS.eqb (lit "EPUB") (lit "EPUB")) with true. cbv iota.
  now rewrite (removeExtension_stem stem ext Hne Hext).
Qed.

Lemma epub_download_is_titled_by_the_file_stem_witness :
  App.downloadResult (Demo.host None []) 1 2 3 Samples.epubChosen
  = (lit "nebula_output_3.epub",
     {| blob := ZipBlob (createEPUB 1 2 (lit "notes") (lit "hello"));
        extension := lit "epub" |}).
Proof.
  apply (epub_download_is_titled_by_the_file_stem
           (Demo.host None []) 1 2 3 Samples.epubChosen Samples.notes
           (lit "notes") (lit "txt")).
  - reflexivity.
  - reflexivity.
  - reflexivity.
  - discriminate.
  - reflexivity.
Defined.

End Component.

(** ** processEPUB: the suffix of a content document *)

Section ContentSuffix.

(** A path passes the suffix test of the filter exactly when it ends
    with .xhtml, .html or .htm written in any mix of small and capital
    letters; nothing else of the path matters to this test. *)
Theorem content_suffix_ignores_case (filename : jsstring) :
  matchesContentSuffix filename = true
  <-> exists stem ext,
        filename = stem ++ ext
        /\ In (toLowerCase ext) [lit ".xhtml"; lit ".html"; lit ".htm"].
Proof.
  unfold matchesContentSuffix. rewrite existsb_exists. split.
  - intros (suffix & Hin & Hends).
    destruct (endsWith_split _ _ Hends) as [front Hfront].
    unfold toLowerCase in Hfront. apply map_eq_app in Hfront.
    destruct Hfront as (stem & ext & -> & _ & Hext).
    exists stem, ext. split; [reflexivity|].
    unfold toLowerCase. rewrite Hext. simpl in Hin |- *.
    repeat (destruct Hin as [<-|Hin]; [tauto|]). contradiction.
  - intros (stem & ext & -> & Hin).
    assert (Hends : endsWith (toLowerCase ext) (toLowerCase (stem ++ ext))
                    = true)
      by (unfold toLowerCase; rewrite map_app; apply endsWith_app).
    simpl in Hin. destruct Hin as [E|[E|[E|[]]]]; rewrite <- E in Hends.
    + exists ".xhtml"%string. split; [simpl; tauto | exact Hends].
    + exists ".html"%string. split; [simpl; tauto | exact Hends].
    + exists ".htm"%string. split; [simpl; tauto | exact Hends].
Qed.

(** A chapter whose extension is written in capitals. *)
Lemma content_suffix_ignores_case_witness :
  matchesContentSuffix (lit "OEBPS/Chapter1" ++ lit ".XHTML") = true.
Proof.
  apply (proj2 (content_suffix_ignores_case
                  (lit "OEBPS/Chapter1" ++ lit ".XHTML"))).
  exists (lit "OEBPS/Chapter1"), (lit ".XHTML"). split; [reflexivity|].
  now left.
Defined.

End ContentSuffix.
